(** * test-hf-mcp.py: the interactive check runner and its report

    A shallow embedding of [src/test-hf-mcp.py].  The script prints
    instructions, reads the operator's answers with [input()], collects one
    boolean per check in a dict and prints a report.

    - The operator's terminal is a list of [event]s, one per [input()] call:
      a line of text, Ctrl-C ([KeyboardInterrupt]) or end of input
      ([EOFError]).  An exhausted list reads as end of input.
    - Everything written to standard output is kept, in order, as a list of
      [out] items: one per [print] call and one per [input] prompt.
    - Exceptions are explicit: a computation returns a value or raises.
    - Text is [string] (one [ascii] per character); [str.lower] and
      [str.strip] are modelled on code points below 128.
    - The float arithmetic of the success rate is IEEE 754 binary64, through
      the operations of [SpecFloat]. *)

From Stdlib Require Import List String Ascii Bool Arith ZArith Lia.
From Stdlib Require Import DecimalString SpecFloat.
Import ListNotations.
Local Open Scope string_scope.
Local Open Scope list_scope.

(** ** Strings *)

Module Str.

Definition nl : string := String (ascii_of_nat 10) EmptyString.

(** [c * n] for a one-character string [c]. *)
Fixpoint times (c : string) (n : nat) : string :=
  match n with
  | O => EmptyString
  | S n' => c ++ times c n'
  end.

(** [str(n)] for an [int]. *)
Definition of_Z (z : Z) : string := NilZero.string_of_int (Z.to_int z).

Definition lower_char (c : ascii) : ascii :=
  let n := nat_of_ascii c in
  if (65 <=? n)%nat && (n <=? 90)%nat then ascii_of_nat (n + 32) else c.

(** [s.lower()] *)
Fixpoint lower (s : string) : string :=
  match s with
  | EmptyString => EmptyString
  | String c s' => String (lower_char c) (lower s')
  end.

(** [c.isspace()] for a [str] character below 128: TAB, LF, VT, FF, CR,
    FS, GS, RS, US and the space. *)
Definition isspace (c : ascii) : bool :=
  let n := nat_of_ascii c in
  ((9 <=? n)%nat && (n <=? 13)%nat)
  || ((28 <=? n)%nat && (n <=? 32)%nat).

Fixpoint lstrip (s : string) : string :=
  match s with
  | EmptyString => EmptyString
  | String c s' => if isspace c then lstrip s' else s
  end.

Fixpoint rstrip (s : string) : string :=
  match s with
  | EmptyString => EmptyString
  | String c s' =>
      match rstrip s' with
      | EmptyString => if isspace c then EmptyString else String c EmptyString
      | r => String c r
      end
  end.

(** [s.strip()] *)
Definition strip (s : string) : string := rstrip (lstrip s).

End Str.

(** ** Floats: [int / int], [float * int] and the [.1f] format *)

Module Float.

Definition prec : Z := 53.
Definition emax : Z := 1024.

(** [float(z)], rounded to nearest even. *)
Definition of_Z (z : Z) : spec_float := binary_normalize prec emax z 0 false.

Definition div : spec_float -> spec_float -> spec_float := SFdiv prec emax.
Definition mul : spec_float -> spec_float -> spec_float := SFmul prec emax.
Definition ltb : spec_float -> spec_float -> bool := SFltb.

(** The integer nearest to [num / den], ties to even ([den > 0]). *)
Definition round_half_even (num den : Z) : Z :=
  let q := (num / den)%Z in
  let r := (num mod den)%Z in
  match (2 * r ?= den)%Z with
  | Lt => q
  | Gt => (q + 1)%Z
  | Eq => if Z.even q then q else (q + 1)%Z
  end.

(** Tenths of [|x|], correctly rounded from the exact binary value. *)
Definition tenths (m : positive) (e : Z) : Z :=
  match e with
  | Z0 => (Zpos m * 10)%Z
  | Zpos p => (Zpos m * 2 ^ Zpos p * 10)%Z
  | Zneg p => round_half_even (Zpos m * 10) (2 ^ Zpos p)
  end.

Definition sign (s : bool) : string := if s then "-" else "".

(** [format(x, '.1f')] *)
Definition format_1f (x : spec_float) : string :=
  match x with
  | S754_zero s => sign s ++ "0.0"
  | S754_infinity s => sign s ++ "inf"
  | S754_nan => "nan"
  | S754_finite s m e =>
      let t := tenths m e in
      sign s ++ Str.of_Z (t / 10) ++ "." ++ Str.of_Z (t mod 10)
  end.

End Float.

(** ** Exceptions, the terminal and the I/O monad *)

Inductive exception : Type :=
| KeyboardInterrupt                 (* a BaseException, not an Exception *)
| EOFError                          (* input() at end of input *)
| ZeroDivisionError                 (* int / 0 *)
| OtherException (msg : string).    (* any other subclass of Exception *)

(** [isinstance(e, Exception)] *)
Definition is_Exception (e : exception) : bool :=
  match e with
  | KeyboardInterrupt => false
  | _ => true
  end.

(** [str(e)] *)
Definition str_of_exception (e : exception) : string :=
  match e with
  | KeyboardInterrupt => ""
  | EOFError => "EOF when reading a line"
  | ZeroDivisionError => "division by zero"
  | OtherException msg => msg
  end.

(** What the terminal delivers to one [input()] call. *)
Inductive event : Type :=
| Line (s : string)
| Interrupt
| Eof.

(** What the script writes to standard output. *)
Inductive out : Type :=
| Print (s : string)      (* print(s): the text and a newline *)
| Prompt (s : string).    (* the prompt of input(s), no newline *)

Inductive result (A : Type) : Type :=
| Return (a : A)
| Raise (e : exception).
Arguments Return {A} a.
Arguments Raise {A} e.

Definition io (A : Type) : Type :=
  list event -> list out * result A * list event.

Definition ret {A} (a : A) : io A := fun ins => ([], Return a, ins).

Definition raise {A} (e : exception) : io A := fun ins => ([], Raise e, ins).

Definition bind {A B} (m : io A) (k : A -> io B) : io B :=
  fun ins =>
    match m ins with
    | (o1, Return a, ins1) =>
        match k a ins1 with
        | (o2, r, ins2) => (o1 ++ o2, r, ins2)
        end
    | (o1, Raise e, ins1) => (o1, Raise e, ins1)
    end.

Notation "x <- m ;; k" := (bind m (fun x => k))
  (at level 61, m at next level, right associativity).
Notation "m ;; k" := (bind m (fun _ => k))
  (at level 61, right associativity).

(** [print(s)] *)
Definition print (s : string) : io unit := fun ins => ([Print s], Return tt, ins).

(** [input(prompt)] *)
Definition input (prompt : string) : io string :=
  fun ins =>
    match ins with
    | Line s :: ins' => ([Prompt prompt], Return s, ins')
    | Interrupt :: ins' => ([Prompt prompt], Raise KeyboardInterrupt, ins')
    | Eof :: ins' => ([Prompt prompt], Raise EOFError, ins')
    | [] => ([Prompt prompt], Raise EOFError, [])
    end.

Fixpoint print_all (ls : list string) : io unit :=
  match ls with
  | [] => ret tt
  | l :: ls' => print l ;; print_all ls'
  end.

Definition stdout_of {A} (r : list out * result A * list event) : list out :=
  fst (fst r).
Definition result_of {A} (r : list out * result A * list event) : result A :=
  snd (fst r).
Definition stdin_of {A} (r : list out * result A * list event) : list event :=
  snd r.

(** ** The print helpers *)

(** [print_banner]: [now] is [datetime.now()] as rendered by [strftime]. *)
Definition print_banner (now : string) : io unit :=
  print (Str.times "=" 60) ;;
  print "🤗 HUGGING FACE MCP SERVER TEST SUITE" ;;
  print (Str.times "=" 60) ;;
  print ("Started at: " ++ now) ;;
  print "".

Definition print_test_header (test_name description : string) : io unit :=
  print ("🧪 TEST: " ++ test_name) ;;
  print ("📝 Description: " ++ description) ;;
  print (Str.times "-" 40).

Definition print_success (message : string) : io unit :=
  print ("✅ SUCCESS: " ++ message).

Definition print_error (message : string) : io unit :=
  print ("❌ ERROR: " ++ message).

Definition print_info (message : string) : io unit :=
  print ("ℹ️  INFO: " ++ message).

Definition wait_prompt : string :=
  Str.nl ++ "Press Enter to continue to the next test...".

Definition wait_for_user : io unit :=
  _ <- input wait_prompt ;;
  print "".

(** ** The eight checks *)

(** [input(question).lower().strip()] *)
Definition ask (question : string) : io string :=
  s <- input question ;;
  ret (Str.strip (Str.lower s)).

Definition basic_question : string :=
  "Did Cursor respond with Hugging Face model search results? (y/n): ".

Definition test_basic_functionality : io bool :=
  print_test_header "Basic MCP Integration"
    "Check if Cursor can communicate with the MCP server" ;;
  print "This test requires manual verification in Cursor." ;;
  print "Please try the following in Cursor's chat:" ;;
  print "" ;;
  print "1. Type: 'Can you search for popular text generation models on Hugging Face?'" ;;
  print "2. You should see the MCP server respond with model search results" ;;
  print "3. Look for JSON formatted results with model information" ;;
  print "" ;;
  response <- ask basic_question ;;
  if String.eqb response "y" then
    print_success "Basic MCP integration is working!" ;;
    ret true
  else
    print_error "MCP server may not be properly connected to Cursor" ;;
    print "Check your Cursor MCP configuration" ;;
    ret false.

Definition test_queries : list string :=
  [ "Search for BERT models on Hugging Face";
    "Find the most popular GPT models";
    "Look for image classification models";
    "Search for models with 'sentiment' in the name" ].

(** [for i, query in enumerate(qs, i): print(f"{i}. {query}")] *)
Fixpoint print_enumerated (i : Z) (qs : list string) : io unit :=
  match qs with
  | [] => ret tt
  | query :: qs' =>
      print (Str.of_Z i ++ ". " ++ query) ;;
      print_enumerated (i + 1) qs'
  end.

Definition search_question : string :=
  "Did all queries return relevant model results? (y/n): ".

Definition test_model_search : io bool :=
  print_test_header "Model Search" "Test searching for specific models" ;;
  print "Try these queries in Cursor one by one:" ;;
  print_enumerated 1 test_queries ;;
  print "" ;;
  response <- ask search_question ;;
  if String.eqb response "y" then
    print_success "Model search functionality is working!" ;;
    ret true
  else
    print_error "Model search may have issues" ;;
    ret false.

Definition info_question : string :=
  "Did you get detailed model information? (y/n): ".

Definition test_model_info : io bool :=
  print_test_header "Model Information" "Test getting detailed model information" ;;
  print "Try this query in Cursor:" ;;
  print "'Get detailed information about the model bert-base-uncased'" ;;
  print "" ;;
  print "Expected response should include:" ;;
  print "- Model ID, author, downloads, likes" ;;
  print "- Tags, pipeline_tag, library_name" ;;
  print "- Created/updated dates" ;;
  print "- Configuration details" ;;
  print "" ;;
  response <- ask info_question ;;
  if String.eqb response "y" then
    print_success "Model information retrieval is working!" ;;
    ret true
  else
    print_error "Model information retrieval may have issues" ;;
    ret false.

Definition dataset_question : string :=
  "Did you get dataset search results? (y/n): ".

Definition test_dataset_search : io bool :=
  print_test_header "Dataset Search" "Test searching for datasets" ;;
  print "Try this query in Cursor:" ;;
  print "'Search for sentiment analysis datasets on Hugging Face'" ;;
  print "" ;;
  print "Expected response should include:" ;;
  print "- Dataset IDs and authors" ;;
  print "- Download counts and likes" ;;
  print "- Task categories and tags" ;;
  print "" ;;
  response <- ask dataset_question ;;
  if String.eqb response "y" then
    print_success "Dataset search functionality is working!" ;;
    ret true
  else
    print_error "Dataset search may have issues" ;;
    ret false.

Definition token_question : string :=
  "Do you have HF_TOKEN configured? (y/n): ".

Definition generation_question : string :=
  "Did text generation work successfully? (y/n): ".

Definition test_inference : io bool :=
  print_test_header "Text Generation Inference"
    "Test running inference through the MCP server" ;;
  print "⚠️  This test requires your HF_TOKEN to be set in the MCP configuration" ;;
  print "" ;;
  print "Try this query in Cursor:" ;;
  print "'Generate text using gpt2 with the prompt: The future of artificial intelligence is'" ;;
  print "" ;;
  print "Expected response should include:" ;;
  print "- Generated text completion" ;;
  print "- Model information" ;;
  print "- Generation parameters used" ;;
  print "" ;;
  has_token <- ask token_question ;;
  if String.eqb has_token "n" then
    print_info "Skipping inference test - HF_TOKEN not configured" ;;
    print "To enable inference, add your Hugging Face token to the MCP configuration" ;;
    ret true
  else
    response <- ask generation_question ;;
    if String.eqb response "y" then
      print_success "Text generation inference is working!" ;;
      ret true
    else
      print_error "Text generation inference may have issues" ;;
      print "Check your HF_TOKEN configuration" ;;
      ret false.

Definition spaces_question : string :=
  "Did you get spaces search results? (y/n): ".

Definition test_spaces_search : io bool :=
  print_test_header "Spaces Search" "Test searching for Hugging Face Spaces" ;;
  print "Try this query in Cursor:" ;;
  print "'Search for chatbot spaces on Hugging Face'" ;;
  print "" ;;
  print "Expected response should include:" ;;
  print "- Space IDs and authors" ;;
  print "- Titles and descriptions" ;;
  print "- SDK information (Gradio, Streamlit, etc.)" ;;
  print "- Stage and tags" ;;
  print "" ;;
  response <- ask spaces_question ;;
  if String.eqb response "y" then
    print_success "Spaces search functionality is working!" ;;
    ret true
  else
    print_error "Spaces search may have issues" ;;
    ret false.

Definition errors_question : string :=
  "Did error cases return helpful error messages? (y/n): ".

Definition test_error_handling : io bool :=
  print_test_header "Error Handling" "Test how the server handles invalid requests" ;;
  print "Try these intentionally problematic queries in Cursor:" ;;
  print "1. 'Get information about a non-existent model: fake/nonexistent-model'" ;;
  print "2. 'Search for models with an empty query'" ;;
  print "" ;;
  print "Expected behavior:" ;;
  print "- Should return helpful error messages" ;;
  print "- Should not crash or hang" ;;
  print "- Should provide guidance on valid inputs" ;;
  print "" ;;
  response <- ask errors_question ;;
  if String.eqb response "y" then
    print_success "Error handling is working properly!" ;;
    ret true
  else
    print_error "Error handling may need improvement" ;;
    ret false.

Definition comprehensive_prompt : string :=
  Str.nl
  ++ "Please help me test the Hugging Face MCP server by doing the following:" ++ Str.nl
  ++ Str.nl
  ++ "1. Search for the top 3 most popular text-generation models" ++ Str.nl
  ++ "2. Get detailed information about 'distilbert-base-uncased'" ++ Str.nl
  ++ "3. Search for 2 datasets related to 'question answering'" ++ Str.nl
  ++ "4. Find 2 spaces related to 'image generation'" ++ Str.nl
  ++ "5. If you have access, try generating text with 'gpt2' using prompt: 'Hello world'" ++ Str.nl
  ++ Str.nl
  ++ "Please provide a summary of what worked and what didn't." ++ Str.nl
  ++ "    ".

Definition comprehensive_question : string :=
  "Did the comprehensive test complete successfully? (y/n): ".

Definition run_comprehensive_test : io bool :=
  print_test_header "Comprehensive Test" "Test multiple features in sequence" ;;
  print "Copy and paste this comprehensive test prompt into Cursor:" ;;
  print "" ;;
  print comprehensive_prompt ;;
  print "" ;;
  response <- ask comprehensive_question ;;
  if String.eqb response "y" then
    print_success "Comprehensive test passed! Your MCP server is fully functional!" ;;
    ret true
  else
    print_error "Some parts of the comprehensive test failed" ;;
    ret false.

(** ** The ResultSet: a [dict] from check name to outcome *)

(** A Python [dict] keeps its keys in insertion order; assigning to a key
    that is present replaces the value in place. *)
Definition dict : Type := list (string * bool).

(** [d[k] = v] *)
Fixpoint dict_set (d : dict) (k : string) (v : bool) : dict :=
  match d with
  | [] => [(k, v)]
  | (k', v') :: d' =>
      if String.eqb k' k then (k', v) :: d' else (k', v') :: dict_set d' k v
  end.

(** [d.get(k, default)] *)
Fixpoint dict_get (d : dict) (k : string) (default : bool) : bool :=
  match d with
  | [] => default
  | (k', v') :: d' => if String.eqb k' k then v' else dict_get d' k default
  end.

(** [len(d)] *)
Definition len (d : dict) : Z := Z.of_nat (List.length d).

(** [sum(d.values())]: [True] counts 1, [False] counts 0. *)
Fixpoint sum_values (d : dict) : Z :=
  match d with
  | [] => 0
  | (_, v) :: d' => ((if v then 1 else 0) + sum_values d')%Z
  end.

Definition keys (d : dict) : list string := map fst d.

(** ** The report *)

(** [a / b] on [int]s; below 2^53 the operands convert exactly and the
    quotient is the correctly rounded binary64 division. *)
Definition truediv (a b : Z) : io spec_float :=
  if (b =? 0)%Z then raise ZeroDivisionError
  else ret (Float.div (Float.of_Z a) (Float.of_Z b)).

Definition total_tests (results : dict) : Z := len results.
Definition passed_tests (results : dict) : Z := sum_values results.
Definition failed_tests (results : dict) : Z :=
  (total_tests results - passed_tests results)%Z.

(** [f"Success Rate: {(passed/total)*100:.1f}%"] *)
Definition success_rate_line (passed total : Z) : io string :=
  q <- truediv passed total ;;
  ret ("Success Rate: " ++ Float.format_1f (Float.mul q (Float.of_Z 100)) ++ "%")%string.

Fixpoint print_detailed (items : dict) : io unit :=
  match items with
  | [] => ret tt
  | (test_name, result) :: items' =>
      print ("  " ++ test_name ++ ": "
             ++ (if result then "✅ PASS" else "❌ FAIL")) ;;
      print_detailed items'
  end.

Definition basic_tips : list string :=
  [ "- Check your Cursor MCP configuration";
    "- Verify the server.js path is correct";
    "- Ensure the server starts without errors" ].

Definition inference_tips : list string :=
  [ "- Verify your HF_TOKEN is set in the MCP configuration";
    "- Check that your token has the necessary permissions" ].

Definition report_rule : string := Str.nl ++ Str.times "=" 60.

Definition verdict_all : string :=
  "🎉 ALL TESTS PASSED! Your Hugging Face MCP server is working perfectly!".
Definition verdict_mostly : string :=
  "⚠️  MOSTLY WORKING: Most features are functional, but some need attention.".
Definition verdict_needs_work : string :=
  "🔧 NEEDS WORK: Several features are not working properly.".

Definition report_title : string := "📊 TEST REPORT".
Definition tips_title : string := Str.nl ++ "Troubleshooting Tips:".
Definition more_help : string :=
  Str.nl ++ "For more help, check the README.md file or Hugging Face documentation.".

Definition generate_test_report (results : dict) : io unit :=
  print report_rule ;;
  print report_title ;;
  print (Str.times "=" 60) ;;
  let total := total_tests results in
  let passed := passed_tests results in
  let failed := failed_tests results in
  print ("Total Tests: " ++ Str.of_Z total) ;;
  print ("Passed: " ++ Str.of_Z passed) ;;
  print ("Failed: " ++ Str.of_Z failed) ;;
  rate <- success_rate_line passed total ;;
  print rate ;;
  print "" ;;
  print "Detailed Results:" ;;
  print_detailed results ;;
  print report_rule ;;
  (if (passed =? total)%Z then print verdict_all
   else
     half <- truediv total 2 ;;
     if Float.ltb half (Float.of_Z passed) then print verdict_mostly
     else print verdict_needs_work) ;;
  print tips_title ;;
  (if negb (dict_get results "Basic MCP Integration" true)
   then print_all basic_tips else ret tt) ;;
  (if negb (dict_get results "Text Generation Inference" true)
   then print_all inference_tips else ret tt) ;;
  print more_help.

(** ** The runner *)

Definition test : Type := string * io bool.

Definition tests : list test :=
  [ ("Basic MCP Integration", test_basic_functionality);
    ("Model Search", test_model_search);
    ("Model Information", test_model_info);
    ("Dataset Search", test_dataset_search);
    ("Text Generation Inference", test_inference);
    ("Spaces Search", test_spaces_search);
    ("Error Handling", test_error_handling);
    ("Comprehensive Test", run_comprehensive_test) ].

(** [tests[-1][0]] *)
Definition last_name (ts : list test) : string :=
  fst (List.last ts ("", ret false)).

(** How the [for] loop was left: its sequence ran out, or by [break]. *)
Inductive loop_exit : Type :=
| Exhausted (results : dict)
| Broke (results : dict).

Definition results_of (x : loop_exit) : dict :=
  match x with
  | Exhausted results => results
  | Broke results => results
  end.

(** The body of a [try]: run [m] and hand its outcome to the handlers. *)
Definition attempt {A} (m : io A) : io (result A) :=
  fun ins =>
    match m ins with
    | (o, r, ins1) => (o, Return r, ins1)
    end.

Definition interrupted_notice : string :=
  Str.nl ++ Str.nl ++ "Test interrupted by user.".

Definition error_notice (test_name : string) (e : exception) : string :=
  "Test '" ++ test_name ++ "' encountered an error: " ++ str_of_exception e.

(** The end of one iteration: [if test_name != tests[-1][0]: wait_for_user()]. *)
Definition pause (last test_name : string) : io unit :=
  if negb (String.eqb test_name last) then wait_for_user else ret tt.

(** [for test_name, test_func in tests: ...], with [last = tests[-1][0]]. *)
Fixpoint for_tests (last : string) (ts : list test) (results : dict)
  : io loop_exit :=
  match ts with
  | [] => ret (Exhausted results)
  | (test_name, test_func) :: ts' =>
      r <- attempt test_func ;;
      match r with
      | Return b =>
          pause last test_name ;;
          for_tests last ts' (dict_set results test_name b)
      | Raise KeyboardInterrupt =>
          print interrupted_notice ;;
          ret (Broke results)
      | Raise e =>
          if is_Exception e then
            print_error (error_notice test_name e) ;;
            pause last test_name ;;
            for_tests last ts' (dict_set results test_name false)
          else raise e
      end
  end.

Definition run_tests (ts : list test) : io loop_exit :=
  for_tests (last_name ts) ts [].

Definition main (now : string) : io unit :=
  print_banner now ;;
  x <- run_tests tests ;;
  generate_test_report (results_of x).

(** ** The process *)

Inductive termination : Type :=
| Finished                    (* the script ran to its end *)
| SysExit (code : Z)          (* sys.exit(code) *)
| Traceback (e : exception).  (* an exception nobody caught *)

Definition exit_status (t : termination) : Z :=
  match t with
  | Finished => 0
  | SysExit code => code
  | Traceback _ => 1
  end.

Definition goodbye : string :=
  Str.nl ++ Str.nl ++ "Test suite interrupted. Goodbye!".

(** [if __name__ == "__main__": try: main() except KeyboardInterrupt: ...] *)
Definition script (now : string) (ins : list event) : list out * termination :=
  match main now ins with
  | (o, Return _, _) => (o, Finished)
  | (o, Raise KeyboardInterrupt, _) => (o ++ [Print goodbye], SysExit 0)
  | (o, Raise e, _) => (o, Traceback e)
  end.


(** ** Vocabulary of the properties *)

(** The answer reads [y] once lowercased and stripped. *)
Definition is_y (s : string) : bool := String.eqb (Str.strip (Str.lower s)) "y".

(** The answer reads [n] once lowercased and stripped. *)
Definition is_n (s : string) : bool := String.eqb (Str.strip (Str.lower s)) "n".

(** The questions put to the operator, in order. *)
Fixpoint prompts (o : list out) : list string :=
  match o with
  | [] => []
  | Prompt q :: o' => q :: prompts o'
  | Print _ :: o' => prompts o'
  end.

(** [d[k]] when [k in d]. *)
Fixpoint dict_lookup (d : dict) (k : string) : option bool :=
  match d with
  | [] => None
  | (k', v') :: d' => if String.eqb k' k then Some v' else dict_lookup d' k
  end.

(** The seven checks that ask one yes/no question. *)
Definition yes_no_checks : list (io bool) :=
  [ test_basic_functionality; test_model_search; test_model_info;
    test_dataset_search; test_spaces_search; test_error_handling;
    run_comprehensive_test ].

(** What [print_banner] writes. *)
Definition banner (now : string) : list out :=
  [ Print (Str.times "=" 60);
    Print "🤗 HUGGING FACE MCP SERVER TEST SUITE";
    Print (Str.times "=" 60);
    Print ("Started at: " ++ now);
    Print "" ].

(** The lines of a report, as [generate_test_report] writes them. *)
Definition report_counts (results : dict) : list out :=
  [ Print report_rule;
    Print report_title;
    Print (Str.times "=" 60);
    Print ("Total Tests: " ++ Str.of_Z (total_tests results));
    Print ("Passed: " ++ Str.of_Z (passed_tests results));
    Print ("Failed: " ++ Str.of_Z (failed_tests results)) ].

Definition rate_text (passed total : Z) : string :=
  "Success Rate: "
  ++ Float.format_1f
       (Float.mul (Float.div (Float.of_Z passed) (Float.of_Z total))
                  (Float.of_Z 100))
  ++ "%".

Definition detail_line (kv : string * bool) : out :=
  Print ("  " ++ fst kv ++ ": " ++ (if snd kv then "✅ PASS" else "❌ FAIL")).

Definition verdict (passed total : Z) : string :=
  if (passed =? total)%Z then verdict_all
  else if Float.ltb (Float.div (Float.of_Z total) (Float.of_Z 2))
                    (Float.of_Z passed)
       then verdict_mostly
       else verdict_needs_work.

Definition tips_for (results : dict) (test_name : string) (tips : list string)
  : list out :=
  if negb (dict_get results test_name true) then map Print tips else [].

Definition report_lines (results : dict) : list out :=
  report_counts results
  ++ [ Print (rate_text (passed_tests results) (total_tests results));
       Print "";
       Print "Detailed Results:" ]
  ++ map detail_line results
  ++ [ Print report_rule;
       Print (verdict (passed_tests results) (total_tests results));
       Print tips_title ]
  ++ tips_for results "Basic MCP Integration" basic_tips
  ++ tips_for results "Text Generation Inference" inference_tips
  ++ [ Print more_help ].

(** A check that asks one question answers [is_y] of the line it read,
    reads nothing else and asks nothing else. *)
Definition asks_once (check : io bool) (question : string) : Prop :=
  forall s ins,
    result_of (check (Line s :: ins)) = Return (is_y s)
    /\ stdin_of (check (Line s :: ins)) = ins
    /\ prompts (stdout_of (check (Line s :: ins))) = [question].

(** The rest of an iteration once the check's outcome [b] is known: the
    pause and the remaining checks. *)
Definition after_check (last : string) (rest : list test) (test_name : string)
    (results : dict) (b : bool) : io loop_exit :=
  pause last test_name ;;
  for_tests last rest (dict_set results test_name b).

(** A run that comes after the output [o]. *)
Definition prepend {A} (o : list out) (r : list out * result A * list event)
  : list out * result A * list event :=
  (o ++ stdout_of r, result_of r, stdin_of r).

(** The output [o] ends with the acknowledgment prompt. *)
Definition ends_at_pause (o : list out) : Prop :=
  exists o', o = o' ++ [Prompt wait_prompt].

(** The printed line starts with a dash, as every tip does. *)
Definition dashed (x : out) : bool :=
  match x with
  | Print (String "-" _) => true
  | _ => false
  end.

(** ** Sample sessions *)

(** End of input at the first question, then an answer to every other one
    (the gate of the inference check is answered [n]). *)
Definition eof_then_answers : list event :=
  [ Eof; Line "";
    Line "y"; Line "";
    Line "y"; Line "";
    Line "n"; Line "";
    Line "n"; Line "";
    Line "y"; Line "";
    Line "y"; Line "";
    Line "y" ].

(** A whole session: five checks pass and three fail. *)
Definition full_session : list event :=
  [ Line "y"; Line "";
    Line "Y"; Line "";
    Line "n"; Line "";
    Line " y "; Line "";
    Line "y"; Line "no"; Line "";
    Line "y"; Line "";
    Line ""; Line "";
    Line "y" ].

(** The ResultSet of [full_session]. *)
Definition full_session_results : dict :=
  [ ("Basic MCP Integration", true); ("Model Search", true);
    ("Model Information", false); ("Dataset Search", true);
    ("Text Generation Inference", false); ("Spaces Search", true);
    ("Error Handling", false); ("Comprehensive Test", true) ].

(** Three checks answered, then Ctrl-C at the question of the fourth. *)
Definition three_then_cancel : list event :=
  [ Line "y"; Line "";
    Line "n"; Line "";
    Line "y"; Line "";
    Interrupt ].

(** One check answered, then Ctrl-C at the acknowledgment prompt. *)
Definition one_then_cancel_at_pause : list event :=
  [ Line "y"; Interrupt ].

(** ** Vocabulary of the further properties *)

(** The printed line starts with two spaces, as every line of the
    per-check listing does. *)
Definition indented (x : out) : bool :=
  match x with
  | Print (String " " (String " " _)) => true
  | _ => false
  end.

(** The exact percentage [100 * passed / total] in tenths, rounded to the
    nearest tenth (halves up). *)
Definition nearest_tenth (passed total : Z) : Z :=
  ((2000 * passed + total) / (2 * total))%Z.

(** What one sees of a run without the printed lines: the questions asked,
    the result and the input left. *)
Definition observe {A} (r : list out * result A * list event)
  : list string * result A * list event :=
  (prompts (stdout_of r), result_of r, stdin_of r).



(** Every character of [s] is white space. *)
Fixpoint allspace (s : string) : bool :=
  match s with
  | EmptyString => true
  | String c s' => Str.isspace c && allspace s'
  end.

(** Some printed line starts with [p]. *)
Definition prints_with (p : string) (o : list out) : bool :=
  existsb (fun x => match x with
                    | Print s => String.prefix p s
                    | Prompt _ => false
                    end) o.

(** What a one-question check does with the next event of the terminal. *)
Definition answer_of (ins : list event) : result bool :=
  match ins with
  | Line s :: _ => Return (is_y s)
  | Interrupt :: _ => Raise KeyboardInterrupt
  | Eof :: _ => Raise EOFError
  | [] => Raise EOFError
  end.

(** The lines the operator types for the inference check: the gate, and the
    second answer when the gate does not read [n]. *)
Definition inference_lines (gate answer : string) : list event :=
  if is_n gate then [Line gate] else [Line gate; Line answer].

(** The questions of the inference check for that gate. *)
Definition inference_questions (gate : string) : list string :=
  if is_n gate then [token_question]
  else [token_question; generation_question].

(** The notices of [print_success] and [print_error]. *)
Definition success_printed (o : list out) : bool := prints_with "✅ SUCCESS: " o.
Definition error_printed (o : list out) : bool := prints_with "❌ ERROR: " o.

(** [check] asks the one question [q], takes one event of the terminal
    whatever it is, and tells its outcome with the matching notice. *)
Definition one_question (check : io bool) (q : string) : Prop :=
  forall ins,
    result_of (check ins) = answer_of ins
    /\ stdin_of (check ins) = tl ins
    /\ prompts (stdout_of (check ins)) = [q]
    /\ success_printed (stdout_of (check ins))
       = match answer_of ins with Return true => true | _ => false end
    /\ error_printed (stdout_of (check ins))
       = match answer_of ins with Return false => true | _ => false end.

(** What one sees of a run that comes after the questions [qs]. *)
Definition after_questions {A} (qs : list string)
    (x : list string * result A * list event)
  : list string * result A * list event :=
  (qs ++ fst (fst x), snd (fst x), snd x).

(** ** The monad: how [bind] runs *)

Lemma bind_run {A B} (m : io A) (k : A -> io B) ins o1 a ins1 o2 r ins2 :
  m ins = (o1, Return a, ins1) ->
  k a ins1 = (o2, r, ins2) ->
  bind m k ins = (o1 ++ o2, r, ins2).
Proof. intros H1 H2. unfold bind. now rewrite H1, H2. Qed.

Lemma bind_raise {A B} (m : io A) (k : A -> io B) ins o e ins1 :
  m ins = (o, Raise e, ins1) ->
  bind m k ins = (o, Raise e, ins1).
Proof. intros H. unfold bind. now rewrite H. Qed.

(** Every run of [bind m k] is one of the two above. *)
Lemma bind_inv {A B} (m : io A) (k : A -> io B) ins o r ins' :
  bind m k ins = (o, r, ins') ->
  (exists o1 a ins1 o2,
      m ins = (o1, Return a, ins1) /\ k a ins1 = (o2, r, ins') /\ o = o1 ++ o2)
  \/ (exists e, m ins = (o, Raise e, ins') /\ r = Raise e).
Proof.
  unfold bind. destruct (m ins) as [[o1 [a|e]] ins1].
  - destruct (k a ins1) as [[o2 r2] ins2] eqn:Hk. intros [= <- <- <-].
    left. now exists o1, a, ins1, o2.
  - intros [= <- <- <-]. right. now exists e.
Qed.

Lemma print_run (s : string) ins : print s ins = ([Print s], Return tt, ins).
Proof. reflexivity. Qed.

Lemma ret_run {A} (a : A) ins : ret a ins = ([], Return a, ins).
Proof. reflexivity. Qed.

Lemma print_all_run (ls : list string) ins :
  print_all ls ins = (map Print ls, Return tt, ins).
Proof.
  induction ls as [|l ls IH]; [reflexivity|].
  simpl. now rewrite (bind_run _ _ _ _ _ _ _ _ _ (print_run l ins) IH).
Qed.

Lemma print_detailed_run (items : dict) ins :
  print_detailed items ins = (map detail_line items, Return tt, ins).
Proof.
  induction items as [|[k v] items IH]; [reflexivity|].
  simpl. now rewrite (bind_run _ _ _ _ _ _ _ _ _ (print_run _ ins) IH).
Qed.

Lemma ask_line (q s : string) ins :
  ask q (Line s :: ins) = ([Prompt q], Return (Str.strip (Str.lower s)), ins).
Proof. reflexivity. Qed.

Lemma ask_interrupt (q : string) ins :
  ask q (Interrupt :: ins) = ([Prompt q], Raise KeyboardInterrupt, ins).
Proof. reflexivity. Qed.

(** ** The report *)

Lemma total_tests_nonempty (results : dict) :
  results <> [] -> total_tests results <> 0%Z.
Proof.
  intros H. unfold total_tests, len.
  destruct results; [congruence | simpl; lia].
Qed.

Lemma success_rate_line_run (passed total : Z) ins :
  total <> 0%Z ->
  success_rate_line passed total ins = ([], Return (rate_text passed total), ins).
Proof.
  intros H. apply Z.eqb_neq in H.
  unfold success_rate_line, truediv. now rewrite H.
Qed.

Lemma tips_run (results : dict) (test_name : string) (tips : list string) ins :
  (if negb (dict_get results test_name true) then print_all tips else ret tt) ins
  = (tips_for results test_name tips, Return tt, ins).
Proof.
  unfold tips_for. destruct (negb _); [apply print_all_run | reflexivity].
Qed.

Lemma verdict_run (passed total : Z) ins :
  (if (passed =? total)%Z then print verdict_all
   else
     half <- truediv total 2 ;;
     if Float.ltb half (Float.of_Z passed) then print verdict_mostly
     else print verdict_needs_work) ins
  = ([Print (verdict passed total)], Return tt, ins).
Proof.
  unfold verdict. destruct (passed =? total)%Z; [reflexivity|].
  unfold truediv. simpl (2 =? 0)%Z. cbv iota.
  unfold bind, ret.
  destruct (Float.ltb _ _); reflexivity.
Qed.

(** One statement of a [do] block, run by a lemma of this section. *)
Ltac run_step :=
  eapply bind_run;
  [ first [ apply print_run
          | apply print_detailed_run
          | apply verdict_run
          | apply tips_run
          | apply success_rate_line_run; assumption ]
  | cbv beta ].

(** On a ResultSet that is not empty the report is written whole. *)
Lemma generate_test_report_run (results : dict) ins :
  results <> [] ->
  generate_test_report results ins = (report_lines results, Return tt, ins).
Proof.
  intros H. pose proof (total_tests_nonempty results H) as Hne.
  enough (exists o, generate_test_report results ins = (o, Return tt, ins)
                    /\ o = report_lines results)
    as [o [Ho ->]] by exact Ho.
  eexists. split.
  - unfold generate_test_report. repeat run_step. apply print_run.
  - reflexivity.
Qed.

(** On the empty ResultSet the report stops at the division. *)
Lemma generate_test_report_empty ins :
  generate_test_report [] ins = (report_counts [], Raise ZeroDivisionError, ins).
Proof. reflexivity. Qed.

(** ** The checks *)

(** Unfolds a check down to the comparison of the normalised answer. *)
Ltac run_check :=
  cbv [test_basic_functionality test_model_search test_model_info
       test_dataset_search test_inference test_spaces_search
       test_error_handling run_comprehensive_test
       print_test_header print_success print_error print_info
       print_enumerated test_queries
       bind print ask input ret result_of stdin_of stdout_of fst snd].

Ltac asks_once_tac :=
  intros s ins; unfold is_y; run_check;
  destruct (String.eqb (Str.strip (Str.lower s)) "y"); repeat split.

Lemma test_basic_functionality_asks :
  asks_once test_basic_functionality basic_question.
Proof. asks_once_tac. Qed.

Lemma test_model_search_asks : asks_once test_model_search search_question.
Proof. asks_once_tac. Qed.

Lemma test_model_info_asks : asks_once test_model_info info_question.
Proof. asks_once_tac. Qed.

Lemma test_dataset_search_asks : asks_once test_dataset_search dataset_question.
Proof. asks_once_tac. Qed.

Lemma test_spaces_search_asks : asks_once test_spaces_search spaces_question.
Proof. asks_once_tac. Qed.

Lemma test_error_handling_asks : asks_once test_error_handling errors_question.
Proof. asks_once_tac. Qed.

Lemma run_comprehensive_test_asks :
  asks_once run_comprehensive_test comprehensive_question.
Proof. asks_once_tac. Qed.

Lemma yes_no_checks_ask (check : io bool) :
  In check yes_no_checks -> exists question, asks_once check question.
Proof.
  unfold yes_no_checks. simpl.
  intros [<-|[<-|[<-|[<-|[<-|[<-|[<-|[]]]]]]]]; eexists.
  - apply test_basic_functionality_asks.
  - apply test_model_search_asks.
  - apply test_model_info_asks.
  - apply test_dataset_search_asks.
  - apply test_spaces_search_asks.
  - apply test_error_handling_asks.
  - apply run_comprehensive_test_asks.
Qed.

(** The inference check when the gate reads [n]. *)
Lemma test_inference_skip (gate : string) ins :
  is_n gate = true ->
  result_of (test_inference (Line gate :: ins)) = Return true
  /\ stdin_of (test_inference (Line gate :: ins)) = ins
  /\ prompts (stdout_of (test_inference (Line gate :: ins))) = [token_question].
Proof.
  unfold is_n. intros H. run_check. rewrite H. repeat split.
Qed.

(** The inference check when the gate reads anything else: it asks again. *)
Lemma test_inference_asked (gate : string) ins :
  is_n gate = false ->
  prompts (stdout_of (test_inference (Line gate :: ins)))
  = [token_question; generation_question].
Proof.
  unfold is_n. intros H. run_check. rewrite H.
  destruct ins as [|[s| |] ins]; try reflexivity.
  destruct (String.eqb (Str.strip (Str.lower s)) "y"); reflexivity.
Qed.

Lemma test_inference_answer (gate s : string) ins :
  is_n gate = false ->
  result_of (test_inference (Line gate :: Line s :: ins)) = Return (is_y s)
  /\ stdin_of (test_inference (Line gate :: Line s :: ins)) = ins.
Proof.
  unfold is_n, is_y. intros H. run_check. rewrite H.
  destruct (String.eqb (Str.strip (Str.lower s)) "y"); split; reflexivity.
Qed.

(** ** The ResultSet *)

Lemma dict_set_keys_fresh (d : dict) (k : string) (v : bool) :
  ~ In k (keys d) -> keys (dict_set d k v) = keys d ++ [k].
Proof.
  induction d as [|[k' v'] d IH]; simpl; intros H; [reflexivity|].
  destruct (String.eqb_spec k' k) as [->|Hne].
  - exfalso. apply H. now left.
  - simpl. f_equal. apply IH. intros Hin. apply H. now right.
Qed.

Lemma dict_get_lookup (d : dict) (k : string) :
  dict_get d k true = false <-> dict_lookup d k = Some false.
Proof.
  induction d as [|[k' v'] d IH]; simpl.
  - split; discriminate.
  - destruct (String.eqb k' k); [|exact IH].
    split; [intros ->; reflexivity | intros [= ->]; reflexivity].
Qed.

Lemma passed_plus_failed (results : dict) :
  (passed_tests results + failed_tests results = total_tests results)%Z.
Proof. unfold failed_tests. lia. Qed.

Lemma keys_length (d : dict) : List.length (keys d) = List.length d.
Proof. apply length_map. Qed.

(** ** The loop *)

Lemma prepend_eq {A} (o o2 : list out) (r : result A) ins :
  prepend o (o2, r, ins) = (o ++ o2, r, ins).
Proof. reflexivity. Qed.

Lemma prepend_inv {A} (o : list out) (x : list out * result A * list event)
      o' r ins :
  prepend o x = (o', r, ins) ->
  exists o2, x = (o2, r, ins) /\ o' = o ++ o2.
Proof.
  destruct x as [[o2 r2] i2]. unfold prepend. simpl.
  intros [= <- <- <-]. now exists o2.
Qed.

(** One iteration of the loop, by the outcome of the check. *)
Lemma for_tests_cons (last test_name : string) (test_func : io bool)
      (rest : list test) (results : dict) ins :
  for_tests last ((test_name, test_func) :: rest) results ins =
  match test_func ins with
  | (o, Return b, ins1) =>
      prepend o (after_check last rest test_name results b ins1)
  | (o, Raise KeyboardInterrupt, ins1) =>
      (o ++ [Print interrupted_notice], Return (Broke results), ins1)
  | (o, Raise e, ins1) =>
      prepend (o ++ [Print ("❌ ERROR: " ++ error_notice test_name e)])
              (after_check last rest test_name results false ins1)
  end.
Proof.
  simpl for_tests. unfold bind at 1. unfold attempt.
  destruct (test_func ins) as [[o [b|e]] ins1].
  - fold (after_check last rest test_name results b).
    now destruct (after_check last rest test_name results b ins1) as [[o2 r] i2].
  - destruct e; try reflexivity;
      cbn [is_Exception];
      fold (after_check last rest test_name results false);
      unfold print_error;
      destruct (after_check last rest test_name results false ins1)
        as [[o2 r] i2] eqn:Hk;
      rewrite (bind_run (print _) (fun _ => after_check _ _ _ _ _)
                 ins1 _ tt ins1 o2 r i2 (print_run _ ins1) Hk);
      unfold prepend; simpl; now rewrite <- app_assoc.
Qed.

(** The pause returns, or the acknowledgment prompt raised. *)
Lemma pause_inv (last test_name : string) ins o r ins' :
  pause last test_name ins = (o, r, ins') ->
  r = Return tt
  \/ (exists e, r = Raise e
                /\ (e = KeyboardInterrupt \/ e = EOFError)
                /\ o = [Prompt wait_prompt]).
Proof.
  unfold pause. destruct (negb _).
  - unfold wait_for_user, bind, input, print.
    destruct ins as [|[s| |] ins0]; intros [= <- <- <-];
      first [ now left | right; eexists; repeat split; auto ].
  - intros [= <- <- <-]. now left.
Qed.

Lemma after_check_inv (last : string) (rest : list test) (test_name : string)
      (results : dict) (b : bool) ins o r ins' :
  after_check last rest test_name results b ins = (o, r, ins') ->
  (exists op i1 o2,
      pause last test_name ins = (op, Return tt, i1)
      /\ for_tests last rest (dict_set results test_name b) i1 = (o2, r, ins')
      /\ o = op ++ o2)
  \/ (exists e, pause last test_name ins = (o, Raise e, ins') /\ r = Raise e).
Proof.
  unfold after_check. intros H. apply bind_inv in H.
  destruct H as [(op & [] & i1 & o2 & Hp & Hk & ->) | (e & Hp & ->)].
  - left. now exists op, i1, o2.
  - right. now exists e.
Qed.

Lemma ends_at_pause_app (o1 o2 : list out) :
  ends_at_pause o2 -> ends_at_pause (o1 ++ o2).
Proof. intros [o' ->]. exists (o1 ++ o'). now rewrite app_assoc. Qed.

(** Whatever leaves the loop as an exception was raised by the
    acknowledgment prompt of a pause. *)
Lemma for_tests_raise (last : string) (ts : list test) :
  forall results ins o e ins',
    for_tests last ts results ins = (o, Raise e, ins') ->
    (e = KeyboardInterrupt \/ e = EOFError) /\ ends_at_pause o.
Proof.
  induction ts as [|[test_name test_func] rest IH]; intros results ins o e ins' H.
  - discriminate H.
  - rewrite for_tests_cons in H.
    assert (Hafter : forall b o1 i1 o2,
               after_check last rest test_name results b i1 = (o2, Raise e, ins') ->
               (e = KeyboardInterrupt \/ e = EOFError) /\ ends_at_pause (o1 ++ o2)).
    { intros b o1 i1 o2 Ha. apply after_check_inv in Ha.
      destruct Ha as [(op & i2 & o3 & Hp & Hf & ->) | (e' & Hp & [= <-])].
      - apply IH in Hf. destruct Hf as [He Hend]. split; [exact He|].
        now apply ends_at_pause_app, ends_at_pause_app.
      - apply pause_inv in Hp.
        destruct Hp as [Hp | (e' & [= <-] & He & ->)]; [discriminate|].
        split; [exact He|]. now exists o1. }
    destruct (test_func ins) as [[o1 [b|ex]] i1].
    + apply prepend_inv in H. destruct H as (o2 & Ha & ->). now apply (Hafter b o1 i1).
    + destruct ex; try discriminate H;
        apply prepend_inv in H; destruct H as (o2 & Ha & ->);
        now apply (Hafter false _ i1).
Qed.

(** The keys of the ResultSet when the loop ends: one per check run, in order. *)
Lemma for_tests_keys (last : string) (ts : list test) :
  forall results ins o x ins',
    NoDup (keys results ++ map fst ts) ->
    for_tests last ts results ins = (o, Return x, ins') ->
    match x with
    | Exhausted r => keys r = keys results ++ map fst ts
    | Broke r =>
        exists j, (j < List.length ts)%nat
                  /\ keys r = keys results ++ firstn j (map fst ts)
    end.
Proof.
  induction ts as [|[test_name test_func] rest IH];
    intros results ins o x ins' Hnd H.
  - injection H as <- <- <-. simpl. now rewrite app_nil_r.
  - rewrite for_tests_cons in H.
    assert (Hfresh : ~ In test_name (keys results)).
    { intros Hin. apply NoDup_remove_2 in Hnd. apply Hnd.
      apply in_or_app. now left. }
    assert (Hafter : forall b i1 o2,
               after_check last rest test_name results b i1 = (o2, Return x, ins') ->
               match x with
               | Exhausted r => keys r = keys results ++ map fst ((test_name, test_func) :: rest)
               | Broke r =>
                   exists j, (j < List.length ((test_name, test_func) :: rest))%nat
                     /\ keys r = keys results ++ firstn j (map fst ((test_name, test_func) :: rest))
               end).
    { intros b i1 o2 Ha. apply after_check_inv in Ha.
      destruct Ha as [(op & i2 & o3 & Hp & Hf & _) | (e' & Hp & [=])].
      apply IH in Hf.
      - rewrite (dict_set_keys_fresh _ _ _ Hfresh) in Hf.
        destruct x as [r|r].
        + rewrite Hf, <- app_assoc. reflexivity.
        + destruct Hf as (j & Hj & Hk). exists (S j). split; [simpl; apply (proj1 (Nat.succ_lt_mono _ _)); exact Hj|].
          rewrite Hk, <- app_assoc. reflexivity.
      - rewrite (dict_set_keys_fresh _ _ _ Hfresh), <- app_assoc. exact Hnd. }
    destruct (test_func ins) as [[o1 [b|ex]] i1].
    + apply prepend_inv in H. destruct H as (o2 & Ha & ->).
      exact (Hafter b i1 o2 Ha).
    + destruct ex.
      * injection H as <- <- <-. exists 0%nat. split; [simpl; apply Nat.lt_0_succ|].
        simpl. now rewrite app_nil_r.
      * apply prepend_inv in H. destruct H as (o2 & Ha & ->).
        exact (Hafter false i1 o2 Ha).
      * apply prepend_inv in H. destruct H as (o2 & Ha & ->).
        exact (Hafter false i1 o2 Ha).
      * apply prepend_inv in H. destruct H as (o2 & Ha & ->).
        exact (Hafter false i1 o2 Ha).
Qed.

Lemma after_check_run (last : string) (rest : list test) (test_name : string)
      (results : dict) (b : bool) ins op i1 x :
  pause last test_name ins = (op, Return tt, i1) ->
  for_tests last rest (dict_set results test_name b) i1 = x ->
  after_check last rest test_name results b ins = prepend op x.
Proof.
  intros Hp <-. unfold after_check.
  destruct (for_tests last rest (dict_set results test_name b) i1)
    as [[o2 r] i2] eqn:Hf.
  now rewrite (bind_run _ _ _ _ _ _ _ _ _ Hp Hf).
Qed.

Lemma after_check_pause_raise (last : string) (rest : list test)
      (test_name : string) (results : dict) (b : bool) ins o e ins' :
  pause last test_name ins = (o, Raise e, ins') ->
  after_check last rest test_name results b ins = (o, Raise e, ins').
Proof. intros Hp. unfold after_check. now apply bind_raise. Qed.

Lemma prepend_prepend {A} (o1 o2 : list out)
      (x : list out * result A * list event) :
  prepend o1 (prepend o2 x) = prepend (o1 ++ o2) x.
Proof.
  destruct x as [[o r] i]. unfold prepend, stdout_of, result_of, stdin_of.
  cbn [fst snd]. now rewrite app_assoc.
Qed.

(** The loop over [done ++ more], when the loop over [done] runs out, goes
    on with [more] from the ResultSet and the input reached there. *)
Lemma for_tests_app_exhausted (last : string) (done more : list test) :
  forall results ins o1 r1 ins1,
    for_tests last done results ins = (o1, Return (Exhausted r1), ins1) ->
    for_tests last (done ++ more) results ins
    = prepend o1 (for_tests last more r1 ins1).
Proof.
  induction done as [|[test_name test_func] done IH];
    intros results ins o1 r1 ins1 H.
  - injection H as <- <- <-. simpl.
    now destruct (for_tests last more results ins) as [[o r] i].
  - simpl app. rewrite for_tests_cons in H. rewrite for_tests_cons.
    assert (Hafter : forall b o i1 o2,
               after_check last done test_name results b i1
               = (o2, Return (Exhausted r1), ins1) ->
               prepend o (after_check last (done ++ more) test_name results b i1)
               = prepend (o ++ o2) (for_tests last more r1 ins1)).
    { intros b o i1 o2 Ha. apply after_check_inv in Ha.
      destruct Ha as [(op & i2 & o3 & Hp & Hf & ->) | (e' & _ & [=])].
      rewrite (after_check_run _ _ _ _ _ _ _ _ _ Hp (IH _ _ _ _ _ Hf)).
      rewrite !prepend_prepend. now rewrite <- ?app_assoc. }
    destruct (test_func ins) as [[o [b|ex]] i1].
    + apply prepend_inv in H. destruct H as (o2 & Ha & ->). now apply Hafter.
    + destruct ex; try discriminate H;
        apply prepend_inv in H; destruct H as (o2 & Ha & ->); now apply Hafter.
Qed.

(** An exception that leaves the loop over [done] leaves the longer loop. *)
Lemma for_tests_app_raise (last : string) (done more : list test) :
  forall results ins o e ins',
    for_tests last done results ins = (o, Raise e, ins') ->
    for_tests last (done ++ more) results ins = (o, Raise e, ins').
Proof.
  induction done as [|[test_name test_func] done IH];
    intros results ins o e ins' H.
  - discriminate H.
  - simpl app. rewrite for_tests_cons in H. rewrite for_tests_cons.
    assert (Hafter : forall b o1 i1 o2,
               after_check last done test_name results b i1 = (o2, Raise e, ins') ->
               prepend o1 (after_check last (done ++ more) test_name results b i1)
               = (o1 ++ o2, Raise e, ins')).
    { intros b o1 i1 o2 Ha. apply after_check_inv in Ha.
      destruct Ha as [(op & i2 & o3 & Hp & Hf & ->) | (e' & Hp & [= <-])].
      - rewrite (after_check_run _ _ _ _ _ _ _ _ _ Hp (IH _ _ _ _ _ Hf)).
        reflexivity.
      - now rewrite (after_check_pause_raise _ _ _ _ _ _ _ _ _ Hp). }
    destruct (test_func ins) as [[o1 [b|ex]] i1].
    + apply prepend_inv in H. destruct H as (o2 & Ha & ->). now apply Hafter.
    + destruct ex; try discriminate H;
        apply prepend_inv in H; destruct H as (o2 & Ha & ->); now apply Hafter.
Qed.

(** ** [main] and the process *)

Lemma tests_names_NoDup : NoDup (map fst tests).
Proof.
  simpl. repeat constructor; simpl; intuition discriminate.
Qed.

Lemma print_banner_run (now : string) ins :
  print_banner now ins = (banner now, Return tt, ins).
Proof. reflexivity. Qed.

Lemma main_reports (now : string) ins o x ins1 :
  run_tests tests ins = (o, Return x, ins1) ->
  results_of x <> [] ->
  main now ins = (banner now ++ o ++ report_lines (results_of x), Return tt, ins1).
Proof.
  intros Hrun Hne. unfold main.
  apply (bind_run _ _ _ _ _ _ _ _ _ (print_banner_run now ins)).
  apply (bind_run _ _ _ _ _ _ _ _ _ Hrun).
  now apply generate_test_report_run.
Qed.

Lemma main_raises (now : string) ins o e ins1 :
  run_tests tests ins = (o, Raise e, ins1) ->
  main now ins = (banner now ++ o, Raise e, ins1).
Proof.
  intros Hrun. unfold main.
  apply (bind_run _ _ _ _ _ _ _ _ _ (print_banner_run now ins)).
  now apply bind_raise.
Qed.

Lemma main_empty (now : string) ins o x ins1 :
  run_tests tests ins = (o, Return x, ins1) ->
  results_of x = [] ->
  main now ins
  = (banner now ++ o ++ report_counts [], Raise ZeroDivisionError, ins1).
Proof.
  intros Hrun He. unfold main.
  apply (bind_run _ _ _ _ _ _ _ _ _ (print_banner_run now ins)).
  apply (bind_run _ _ _ _ _ _ _ _ _ Hrun).
  rewrite He. apply generate_test_report_empty.
Qed.

Lemma in_prompts (q : string) (o : list out) :
  In (Prompt q) o <-> In q (prompts o).
Proof.
  induction o as [|[s|s] o IH]; simpl.
  - tauto.
  - split; [intros [H|H]; [discriminate | now apply IH] | intros H; right; now apply IH].
  - split.
    + intros [[= ->]|H]; [now left | right; now apply IH].
    + intros [->|H]; [now left | right; now apply IH].
Qed.

(** ** The claims *)

(** C1 (fails on the code: the division is not guarded).  On the empty
    ResultSet [generate_test_report] prints the three counts and then
    evaluates [passed_tests/total_tests] with [total_tests = 0]: it raises
    [ZeroDivisionError].  The empty ResultSet is reached when Ctrl-C arrives
    at the first check's question; nobody catches the error and the process
    ends with a traceback and status 1. *)
Theorem empty_report_divides_by_zero (now : string) (ins : list event) :
  generate_test_report [] ins = (report_counts [], Raise ZeroDivisionError, ins)
  /\ result_of (run_tests tests (Interrupt :: ins)) = Return (Broke [])
  /\ snd (script now (Interrupt :: ins)) = Traceback ZeroDivisionError
  /\ exit_status (snd (script now (Interrupt :: ins))) = 1%Z.
Proof. repeat split. Qed.

(** C5: in the inference check, a gate answer that reads [n] yields [True]
    at once: the only question asked is the gate, the question about text
    generation is never prompted and no further input is read. *)
Theorem inference_gate_n_skips (gate : string) (ins : list event) :
  is_n gate = true ->
  result_of (test_inference (Line gate :: ins)) = Return true
  /\ ~ In (Prompt generation_question)
          (stdout_of (test_inference (Line gate :: ins)))
  /\ prompts (stdout_of (test_inference (Line gate :: ins))) = [token_question]
  /\ stdin_of (test_inference (Line gate :: ins)) = ins.
Proof.
  intros H. destruct (test_inference_skip gate ins H) as (Hr & Hi & Hp).
  repeat split; try assumption.
  intros Hin. apply in_prompts in Hin. rewrite Hp in Hin.
  destruct Hin as [Hq|[]]. discriminate Hq.
Qed.

Lemma inference_gate_n_skips_witness :
  result_of (test_inference [Line " N "; Line "y"]) = Return true
  /\ ~ In (Prompt generation_question)
          (stdout_of (test_inference [Line " N "; Line "y"]))
  /\ prompts (stdout_of (test_inference [Line " N "; Line "y"])) = [token_question]
  /\ stdin_of (test_inference [Line " N "; Line "y"]) = [Line "y"].
Proof. apply (inference_gate_n_skips " N " [Line "y"]). reflexivity. Defined.

(** C6: each of the seven one-question checks, and the second question of
    the inference check, answers [True] exactly when the operator's line
    reads [y] once lowercased and stripped, and [False] for any other line. *)
Theorem yes_no_answer_is_y :
  (forall check s ins,
      In check yes_no_checks ->
      result_of (check (Line s :: ins)) = Return (is_y s))
  /\ (forall gate s ins,
         is_n gate = false ->
         result_of (test_inference (Line gate :: Line s :: ins)) = Return (is_y s))
  /\ (forall s, is_y s = true <-> Str.strip (Str.lower s) = "y").
Proof.
  split; [|split].
  - intros check s ins Hin.
    destruct (yes_no_checks_ask check Hin) as [q Hq]. apply Hq.
  - intros gate s ins Hg. apply (test_inference_answer gate s ins Hg).
  - intros s. unfold is_y. apply String.eqb_eq.
Qed.

Lemma yes_no_answer_is_y_witness :
  (result_of (test_basic_functionality [Line "Y"]) = Return true
   /\ result_of (test_model_search [Line " y "]) = Return true
   /\ result_of (test_model_info [Line "y"]) = Return true
   /\ result_of (test_dataset_search [Line "n"]) = Return false
   /\ result_of (test_spaces_search [Line ""]) = Return false
   /\ result_of (test_error_handling [Line "maybe"]) = Return false
   /\ result_of (run_comprehensive_test [Line "yes"]) = Return false)
  /\ result_of (test_inference [Line "y"; Line " Y"]) = Return true.
Proof.
  pose proof (proj1 yes_no_answer_is_y) as H1.
  pose proof (proj1 (proj2 yes_no_answer_is_y)) as H2.
  split; [split; [|split; [|split; [|split; [|split; [|split]]]]]|].
  - apply (H1 test_basic_functionality "Y" []). simpl. tauto.
  - apply (H1 test_model_search " y " []). simpl. tauto.
  - apply (H1 test_model_info "y" []). simpl. tauto.
  - apply (H1 test_dataset_search "n" []). simpl. tauto.
  - apply (H1 test_spaces_search "" []). simpl. tauto.
  - apply (H1 test_error_handling "maybe" []). simpl. tauto.
  - apply (H1 run_comprehensive_test "yes" []). simpl. tauto.
  - apply (H2 "y" " Y" []). reflexivity.
Defined.

(** C10: in the inference check only a gate answer that reads [n] takes the
    skip path.  Any other gate answer (the word [no], the empty line, [y])
    makes the check ask the question about text generation, and the outcome
    is then [True] exactly when that second answer reads [y]. *)
Theorem inference_gate_only_n (gate : string) :
  (is_n gate = true ->
   forall ins,
     result_of (test_inference (Line gate :: ins)) = Return true
     /\ prompts (stdout_of (test_inference (Line gate :: ins))) = [token_question]
     /\ stdin_of (test_inference (Line gate :: ins)) = ins)
  /\ (is_n gate = false ->
      forall ins,
        prompts (stdout_of (test_inference (Line gate :: ins)))
        = [token_question; generation_question])
  /\ (is_n gate = false ->
      forall s ins,
        result_of (test_inference (Line gate :: Line s :: ins)) = Return (is_y s)
        /\ stdin_of (test_inference (Line gate :: Line s :: ins)) = ins)
  /\ (is_n gate = true <-> Str.strip (Str.lower gate) = "n")
  /\ is_n "no" = false /\ is_n "" = false /\ is_n "y" = false.
Proof.
  split; [|split; [|split; [|split]]].
  - intros H ins.
    destruct (test_inference_skip gate ins H) as (Hr & Hi & Hp). now repeat split.
  - intros H ins. apply (test_inference_asked gate ins H).
  - intros H s ins. apply (test_inference_answer gate s ins H).
  - unfold is_n. apply String.eqb_eq.
  - repeat split.
Qed.

Lemma inference_gate_only_n_witness :
  (result_of (test_inference [Line "N"; Line "n"]) = Return true
   /\ prompts (stdout_of (test_inference [Line "N"; Line "n"])) = [token_question]
   /\ stdin_of (test_inference [Line "N"; Line "n"]) = [Line "n"])
  /\ prompts (stdout_of (test_inference [Line "no"; Line "n"]))
     = [token_question; generation_question]
  /\ (result_of (test_inference [Line "no"; Line "n"]) = Return false
      /\ stdin_of (test_inference [Line "no"; Line "n"]) = [])
  /\ (result_of (test_inference [Line ""; Line "Y"]) = Return true
      /\ stdin_of (test_inference [Line ""; Line "Y"]) = []).
Proof.
  split; [|split; [|split]].
  - apply (proj1 (inference_gate_only_n "N")). reflexivity.
  - apply (proj1 (proj2 (inference_gate_only_n "no"))). reflexivity.
  - apply (proj1 (proj2 (proj2 (inference_gate_only_n "no")))). reflexivity.
  - apply (proj1 (proj2 (proj2 (inference_gate_only_n "")))). reflexivity.
Defined.

(** C8: with 8 entries of which 5 are [True], 3 are counted as failed and
    the report prints the success rate as [62.5%]. *)
Theorem five_of_eight_is_62_5 (results : dict) (ins : list event) :
  total_tests results = 8%Z ->
  passed_tests results = 5%Z ->
  failed_tests results = 3%Z
  /\ success_rate_line (passed_tests results) (total_tests results) ins
     = ([], Return "Success Rate: 62.5%", ins)
  /\ In (Print "Success Rate: 62.5%")
        (stdout_of (generate_test_report results ins)).
Proof.
  intros Ht Hp.
  assert (Hne : results <> []).
  { intros ->. discriminate Ht. }
  split; [|split].
  - unfold failed_tests. rewrite Ht, Hp. reflexivity.
  - rewrite Ht, Hp. reflexivity.
  - rewrite (generate_test_report_run results ins Hne).
    unfold stdout_of, report_lines. cbn [fst].
    rewrite Ht, Hp.
    apply in_or_app. right. left. reflexivity.
Qed.

Lemma five_of_eight_is_62_5_witness :
  failed_tests
    [("a", true); ("b", false); ("c", true); ("d", true);
     ("e", false); ("f", true); ("g", false); ("h", true)] = 3%Z
  /\ success_rate_line 5 8 [] = ([], Return "Success Rate: 62.5%", [])
  /\ In (Print "Success Rate: 62.5%")
        (stdout_of (generate_test_report
           [("a", true); ("b", false); ("c", true); ("d", true);
            ("e", false); ("f", true); ("g", false); ("h", true)] [])).
Proof.
  apply (five_of_eight_is_62_5
           [("a", true); ("b", false); ("c", true); ("d", true);
            ("e", false); ("f", true); ("g", false); ("h", true)] []);
    reflexivity.
Defined.

(** ** The tips of the report *)

Lemma tips_for_in (results : dict) (test_name : string) (tips : list string)
      (h : string) :
  In (Print h) (tips_for results test_name tips)
  <-> In h tips /\ dict_lookup results test_name = Some false.
Proof.
  unfold tips_for. rewrite <- dict_get_lookup.
  destruct (dict_get results test_name true); simpl.
  - split; [intros [] | intros [_ H]; discriminate H].
  - split.
    + intros H. apply in_map_iff in H. destruct H as (h' & [= ->] & Hin).
      now split.
    + intros [H _]. apply in_map_iff. now exists h.
Qed.

(** Outside the two blocks of tips no line of a report starts with a dash. *)
Lemma report_lines_dashed (results : dict) (x : out) :
  In x (report_lines results) ->
  dashed x = true ->
  In x (tips_for results "Basic MCP Integration" basic_tips)
  \/ In x (tips_for results "Text Generation Inference" inference_tips).
Proof.
  unfold report_lines. intros Hin Hd.
  repeat (apply in_app_or in Hin; destruct Hin as [Hin|Hin]);
    try (now left); try (now right); exfalso.
  - simpl in Hin. repeat (destruct Hin as [<-|Hin]; [discriminate Hd|]).
    exact Hin.
  - simpl in Hin. repeat (destruct Hin as [<-|Hin]; [discriminate Hd|]).
    exact Hin.
  - apply in_map_iff in Hin. destruct Hin as ([k v] & <- & _).
    discriminate Hd.
  - unfold verdict in Hin. simpl in Hin.
    destruct Hin as [<-|[<-|[<-|[]]]]; try discriminate Hd.
    destruct (_ =? _)%Z; [discriminate Hd|].
    destruct (Float.ltb _ _); discriminate Hd.
  - simpl in Hin. destruct Hin as [<-|[]]. discriminate Hd.
Qed.

Lemma report_counts_dashed (x : out) :
  In x (report_counts []) -> dashed x = false.
Proof.
  simpl. intros H.
  repeat (destruct H as [<-|H]; [reflexivity|]). destruct H.
Qed.

Lemma tips_dashed (h : string) :
  In h basic_tips \/ In h inference_tips -> dashed (Print h) = true.
Proof.
  simpl. intros [H|H];
    repeat (destruct H as [<-|H]; [reflexivity|]); destruct H.
Qed.

(** A tip is in the report exactly when its own block was printed. *)
Lemma report_tip (results : dict) (h : string) ins :
  In h basic_tips \/ In h inference_tips ->
  In (Print h) (stdout_of (generate_test_report results ins))
  <-> In (Print h) (tips_for results "Basic MCP Integration" basic_tips)
      \/ In (Print h) (tips_for results "Text Generation Inference" inference_tips).
Proof.
  intros Hh. pose proof (tips_dashed h Hh) as Hd.
  destruct results as [|kv results].
  - rewrite generate_test_report_empty. unfold stdout_of. cbn [fst].
    split.
    + intros H. apply report_counts_dashed in H. congruence.
    + intros [[]|[]].
  - rewrite generate_test_report_run by discriminate.
    unfold stdout_of. cbn [fst]. split.
    + intros H. now apply report_lines_dashed.
    + unfold report_lines. intros [H|H].
      * apply in_or_app. right. apply in_or_app. right. apply in_or_app. right.
        apply in_or_app. right. apply in_or_app. now left.
      * apply in_or_app. right. apply in_or_app. right. apply in_or_app. right.
        apply in_or_app. right. apply in_or_app. right.
        apply in_or_app. now left.
Qed.

(** C9: a tip of the basic-integration block is in the report exactly when
    ["Basic MCP Integration"] is in the ResultSet with outcome [False], and a
    tip of the inference block exactly when ["Text Generation Inference"] is;
    the two blocks are fixed lists, and a name that is absent, or present
    with [True], brings no tip. *)
Theorem tips_iff_named_check_failed (results : dict) (ins : list event) :
  (forall h, In h basic_tips ->
     (In (Print h) (stdout_of (generate_test_report results ins))
      <-> dict_lookup results "Basic MCP Integration" = Some false))
  /\ (forall h, In h inference_tips ->
        (In (Print h) (stdout_of (generate_test_report results ins))
         <-> dict_lookup results "Text Generation Inference" = Some false)).
Proof.
  split; intros h Hh.
  - rewrite report_tip by now left.
    rewrite !tips_for_in. split.
    + intros [[_ H]|[Hi _]]; [exact H|].
      exfalso. simpl in Hh, Hi.
      repeat (destruct Hh as [<-|Hh];
              [repeat (destruct Hi as [Hi|Hi]; [discriminate Hi|]); exact Hi|]).
      exact Hh.
    + intros H. left. now split.
  - rewrite report_tip by now right.
    rewrite !tips_for_in. split.
    + intros [[Hi _]|[_ H]]; [|exact H].
      exfalso. simpl in Hh, Hi.
      repeat (destruct Hh as [<-|Hh];
              [repeat (destruct Hi as [Hi|Hi]; [discriminate Hi|]); exact Hi|]).
      exact Hh.
    + intros H. right. now split.
Qed.

Lemma tips_iff_named_check_failed_witness :
  (In (Print "- Verify the server.js path is correct")
      (stdout_of (generate_test_report
         [("Basic MCP Integration", false); ("Model Search", true)] []))
   <-> dict_lookup [("Basic MCP Integration", false); ("Model Search", true)]
         "Basic MCP Integration" = Some false)
  /\ (In (Print "- Check that your token has the necessary permissions")
         (stdout_of (generate_test_report
            [("Basic MCP Integration", false); ("Model Search", true)] []))
      <-> dict_lookup [("Basic MCP Integration", false); ("Model Search", true)]
            "Text Generation Inference" = Some false).
Proof.
  split.
  - apply (proj1 (tips_iff_named_check_failed
                    [("Basic MCP Integration", false); ("Model Search", true)] [])).
    simpl. tauto.
  - apply (proj2 (tips_iff_named_check_failed
                    [("Basic MCP Integration", false); ("Model Search", true)] [])).
    simpl. tauto.
Defined.

(** ** Exceptions in a check *)

(** C4: when a check raises an exception that is not the cancellation, the
    loop prints the error with the check's name and message, records [False]
    under that name and goes on with the pause and all the remaining checks;
    and no exception of a check ever leaves the loop: what leaves it was
    raised by the acknowledgment prompt of a pause. *)
Theorem check_exception_is_recorded (last test_name : string)
    (test_func : io bool) (rest : list test) (results : dict)
    (ins : list event) (o : list out) (e : exception) (ins1 : list event) :
  test_func ins = (o, Raise e, ins1) ->
  is_Exception e = true ->
  for_tests last ((test_name, test_func) :: rest) results ins
  = prepend
      (o ++ [Print ("❌ ERROR: Test '" ++ test_name
                    ++ "' encountered an error: " ++ str_of_exception e)])
      ((pause last test_name ;;
        for_tests last rest (dict_set results test_name false)) ins1)
  /\ (forall ts results0 ins0 o' e' ins',
         for_tests last ts results0 ins0 = (o', Raise e', ins') ->
         ends_at_pause o' /\ (e' = KeyboardInterrupt \/ e' = EOFError)).
Proof.
  intros Hf He. split.
  - rewrite for_tests_cons, Hf.
    destruct e; [discriminate He | reflexivity..].
  - intros ts results0 ins0 o' e' ins' H.
    apply for_tests_raise in H. tauto.
Qed.

(** The first check meets the end of input, the operator then answers all
    the other questions: the error is printed, the first check is recorded
    as failed and the seven others run. *)
Lemma check_exception_is_recorded_witness :
  for_tests "Comprehensive Test" tests [] eof_then_answers
  = prepend
      (stdout_of (test_basic_functionality eof_then_answers)
       ++ [Print "❌ ERROR: Test 'Basic MCP Integration' encountered an error: EOF when reading a line"])
      ((pause "Comprehensive Test" "Basic MCP Integration" ;;
        for_tests "Comprehensive Test" (tl tests)
          [("Basic MCP Integration", false)]) (tl eof_then_answers)).
Proof.
  apply (proj1 (check_exception_is_recorded
                  "Comprehensive Test" "Basic MCP Integration"
                  test_basic_functionality (tl tests) [] eof_then_answers
                  (stdout_of (test_basic_functionality eof_then_answers))
                  EOFError (tl eof_then_answers) eq_refl eq_refl)).
Defined.

Example eof_in_first_check_run_continues :
  result_of (run_tests tests eof_then_answers)
  = Return (Exhausted
      [ ("Basic MCP Integration", false); ("Model Search", true);
        ("Model Information", true); ("Dataset Search", false);
        ("Text Generation Inference", true); ("Spaces Search", true);
        ("Error Handling", true); ("Comprehensive Test", true) ])
  /\ snd (script "" eof_then_answers) = Finished.
Proof. split; vm_compute; reflexivity. Qed.

(** ** Full runs *)

Lemma run_tests_keys ins o x ins' :
  run_tests tests ins = (o, Return x, ins') ->
  match x with
  | Exhausted r => keys r = map fst tests
  | Broke r =>
      exists j, (j < List.length tests)%nat /\ keys r = firstn j (map fst tests)
  end.
Proof.
  intros H. apply (for_tests_keys _ _ [] ins o x ins' tests_names_NoDup H).
Qed.

(** C7: when the loop runs through all eight checks (it was not left by
    [break] and nothing was raised), the ResultSet has exactly eight entries,
    one per check in order, and in the report passed plus failed is eight. *)
Theorem full_run_has_eight_results (now : string) (ins : list event)
    (o : list out) (results : dict) (ins' : list event) :
  run_tests tests ins = (o, Return (Exhausted results), ins') ->
  List.length results = 8%nat
  /\ keys results = map fst tests
  /\ total_tests results = 8%Z
  /\ (passed_tests results + failed_tests results = 8)%Z
  /\ script now ins = (banner now ++ o ++ report_lines results, Finished).
Proof.
  intros H. pose proof (run_tests_keys _ _ _ _ H) as Hk. cbn iota in Hk.
  assert (Hlen : List.length results = 8%nat).
  { rewrite <- keys_length, Hk. reflexivity. }
  assert (Ht : total_tests results = 8%Z).
  { unfold total_tests, len. rewrite Hlen. reflexivity. }
  repeat split; try assumption.
  - rewrite passed_plus_failed. exact Ht.
  - unfold script.
    rewrite (main_reports now ins o (Exhausted results) ins' H); [reflexivity|].
    simpl. intros ->. discriminate Hlen.
Qed.

Lemma full_run_has_eight_results_witness :
  List.length full_session_results = 8%nat
  /\ keys full_session_results = map fst tests
  /\ total_tests full_session_results = 8%Z
  /\ (passed_tests full_session_results
      + failed_tests full_session_results = 8)%Z
  /\ script "" full_session
     = (banner "" ++ stdout_of (run_tests tests full_session)
        ++ report_lines full_session_results, Finished).
Proof.
  apply (full_run_has_eight_results "" full_session
           (stdout_of (run_tests tests full_session))
           full_session_results []).
  reflexivity.
Defined.

(** The report of [full_session]: 5 passed, 3 failed, 62.5%. *)
Example full_session_report :
  let o := fst (script "" full_session) in
  In (Print "Total Tests: 8") o
  /\ In (Print "Passed: 5") o
  /\ In (Print "Failed: 3") o
  /\ In (Print "Success Rate: 62.5%") o
  /\ In (Print verdict_mostly) o
  /\ In (Print "- Verify your HF_TOKEN is set in the MCP configuration") o
  /\ ~ In (Print "- Check your Cursor MCP configuration") o.
Proof.
  vm_compute. repeat split; try tauto.
  intros H. repeat (destruct H as [H|H]; [discriminate H|]). exact H.
Qed.

(** ** Cancellation *)

Lemma script_goodbye (now : string) ins o ins' :
  run_tests tests ins = (o, Raise KeyboardInterrupt, ins') ->
  script now ins = (banner now ++ o ++ [Print goodbye], SysExit 0).
Proof.
  intros H. unfold script. rewrite (main_raises now ins o _ ins' H).
  now rewrite <- app_assoc.
Qed.

(** C2 as stated fails: Ctrl-C at the first question, before any check has
    completed, prints no goodbye notice and the exit status is not 0. *)
Lemma cancel_before_first_check_no_goodbye :
  ~ In (Print goodbye) (fst (script "" [Interrupt]))
  /\ exit_status (snd (script "" [Interrupt])) <> 0%Z.
Proof.
  split.
  - vm_compute. intros H.
    repeat (destruct H as [H|H]; [discriminate H|]). exact H.
  - vm_compute. discriminate.
Qed.

(** C2, amended: the goodbye notice and the exit status 0 belong to a
    cancellation that leaves the loop, and such a cancellation was raised at
    the acknowledgment prompt between two checks; Ctrl-C at the first
    question is instead caught by the loop, which prints its own notice and
    leaves by [break] with the empty ResultSet for the report. *)
Theorem cancel_at_pause_says_goodbye (now : string) (ins : list event)
    (o : list out) (ins' : list event) :
  (run_tests tests ins = (o, Raise KeyboardInterrupt, ins') ->
   ends_at_pause o
   /\ script now ins = (banner now ++ o ++ [Print goodbye], SysExit 0)
   /\ exit_status (snd (script now ins)) = 0%Z)
  /\ run_tests tests (Interrupt :: ins)
     = (stdout_of (test_basic_functionality (Interrupt :: ins))
        ++ [Print interrupted_notice],
        Return (Broke []), ins).
Proof.
  split.
  - intros H. split; [|split].
    + apply for_tests_raise in H. tauto.
    + now apply script_goodbye with (ins' := ins').
    + rewrite (script_goodbye now ins o ins' H). reflexivity.
  - reflexivity.
Qed.

Lemma cancel_at_pause_says_goodbye_witness :
  ends_at_pause (stdout_of (run_tests tests one_then_cancel_at_pause))
  /\ script "" one_then_cancel_at_pause
     = (banner "" ++ stdout_of (run_tests tests one_then_cancel_at_pause)
        ++ [Print goodbye], SysExit 0)
  /\ exit_status (snd (script "" one_then_cancel_at_pause)) = 0%Z.
Proof.
  apply (proj1 (cancel_at_pause_says_goodbye "" one_then_cancel_at_pause
                  (stdout_of (run_tests tests one_then_cancel_at_pause)) [])).
  reflexivity.
Defined.

(** C3 as stated fails: after one completed check, Ctrl-C at the
    acknowledgment prompt does not reach the reporting phase; no report is
    printed. *)
Lemma cancel_at_pause_prints_no_report :
  result_of (run_tests tests one_then_cancel_at_pause) = Raise KeyboardInterrupt
  /\ ~ In (Print report_title) (fst (script "" one_then_cancel_at_pause)).
Proof.
  split; [reflexivity|].
  vm_compute. intros H.
  repeat (destruct H as [H|H]; [discriminate H|]). exact H.
Qed.

(** C3, amended: Ctrl-C at the question of a check, after the checks of
    [done] (at least one) have completed, is caught by the loop: the run
    stops, the ResultSet holds exactly the checks of [done], in order, the
    report is printed from that ResultSet alone and the process ends
    normally, status 0. *)
Theorem cancel_in_check_reports_completed (now : string)
    (done : list test) (test_name : string) (test_func : io bool)
    (rest : list test) (ins : list event)
    (o1 : list out) (r1 : dict) (ins1 : list event)
    (o2 : list out) (ins2 : list event) :
  tests = done ++ (test_name, test_func) :: rest ->
  done <> [] ->
  for_tests (last_name tests) done [] ins = (o1, Return (Exhausted r1), ins1) ->
  test_func ins1 = (o2, Raise KeyboardInterrupt, ins2) ->
  run_tests tests ins
  = (o1 ++ o2 ++ [Print interrupted_notice], Return (Broke r1), ins2)
  /\ keys r1 = map fst done
  /\ List.length r1 = List.length done
  /\ script now ins
     = (banner now ++ (o1 ++ o2 ++ [Print interrupted_notice])
        ++ report_lines r1, Finished)
  /\ exit_status (snd (script now ins)) = 0%Z.
Proof.
  intros Hts Hne Hdone Hint.
  assert (Hrun : run_tests tests ins
                 = (o1 ++ o2 ++ [Print interrupted_notice],
                    Return (Broke r1), ins2)).
  { unfold run_tests. rewrite Hts at 2.
    rewrite (for_tests_app_exhausted _ _ _ _ _ _ _ _ Hdone).
    rewrite for_tests_cons, Hint. reflexivity. }
  assert (Hk : keys r1 = map fst done).
  { apply (for_tests_keys (last_name tests) done [] ins o1 (Exhausted r1) ins1);
      [|exact Hdone].
    pose proof tests_names_NoDup as Hnd. rewrite Hts, map_app in Hnd.
    simpl. now apply NoDup_app_remove_r in Hnd. }
  assert (Hlen : List.length r1 = List.length done).
  { rewrite <- keys_length, Hk. apply length_map. }
  assert (Hs : script now ins
               = (banner now ++ (o1 ++ o2 ++ [Print interrupted_notice])
                  ++ report_lines r1, Finished)).
  { unfold script.
    rewrite (main_reports now ins _ (Broke r1) ins2 Hrun); [reflexivity|].
    simpl. intros ->. destruct done; [congruence | discriminate Hlen]. }
  repeat split; try assumption.
  rewrite Hs. reflexivity.
Qed.

Lemma cancel_in_check_reports_completed_witness :
  result_of (run_tests tests three_then_cancel)
  = Return (Broke [ ("Basic MCP Integration", true); ("Model Search", false);
                    ("Model Information", true) ])
  /\ In (Print "Total Tests: 3") (fst (script "" three_then_cancel))
  /\ exit_status (snd (script "" three_then_cancel)) = 0%Z.
Proof.
  destruct (cancel_in_check_reports_completed ""
              (firstn 3 tests) "Dataset Search" test_dataset_search
              (skipn 4 tests) three_then_cancel
              (stdout_of (for_tests "Comprehensive Test" (firstn 3 tests) []
                            three_then_cancel))
              [ ("Basic MCP Integration", true); ("Model Search", false);
                ("Model Information", true) ]
              [Interrupt]
              (stdout_of (test_dataset_search [Interrupt]))
              []
              eq_refl
              ltac:(discriminate)
              eq_refl
              eq_refl) as (Hrun & _ & _ & Hs & Hx).
  split; [|split].
  - rewrite Hrun. reflexivity.
  - rewrite Hs. cbn [fst]. apply in_or_app. right. apply in_or_app. right.
    vm_compute. tauto.
  - exact Hx.
Defined.

(** ** Further properties: the ResultSet and the counts *)

Lemma dict_set_fresh (d : dict) (k : string) (v : bool) :
  ~ In k (keys d) -> dict_set d k v = d ++ [(k, v)].
Proof.
  induction d as [|[k' v'] d IH]; simpl; intros H; [reflexivity|].
  destruct (String.eqb_spec k' k) as [->|Hne].
  - exfalso. apply H. now left.
  - f_equal. apply IH. intros Hin. apply H. now right.
Qed.

Lemma dict_set_keys_present (d : dict) (k : string) (v : bool) :
  In k (keys d) -> keys (dict_set d k v) = keys d.
Proof.
  induction d as [|[k' v'] d IH]; simpl; intros H; [destruct H|].
  destruct (String.eqb_spec k' k) as [->|Hne]; [reflexivity|].
  simpl. f_equal. apply IH. destruct H as [H|H]; [congruence | exact H].
Qed.

(** [results[k] = v] then [results.get(k, default)] gives [v]; every other
    name keeps its outcome; a name already present keeps its position and a
    new name goes to the end. *)
Theorem dict_set_then_get (d : dict) (k : string) (v default : bool) :
  dict_get (dict_set d k v) k default = v
  /\ (forall k', k' <> k ->
        dict_get (dict_set d k v) k' default = dict_get d k' default)
  /\ (In k (keys d) -> keys (dict_set d k v) = keys d)
  /\ (~ In k (keys d) -> dict_set d k v = d ++ [(k, v)]).
Proof.
  split; [|split; [|split]].
  - induction d as [|[k' v'] d IH]; simpl.
    + now rewrite String.eqb_refl.
    + destruct (String.eqb_spec k' k) as [->|Hne]; simpl.
      * now rewrite String.eqb_refl.
      * destruct (String.eqb_spec k' k); [congruence | exact IH].
  - intros k2 Hk2. induction d as [|[k' v'] d IH]; simpl.
    + destruct (String.eqb_spec k k2); [congruence | reflexivity].
    + destruct (String.eqb_spec k' k) as [->|Hne]; simpl.
      * destruct (String.eqb_spec k k2); [congruence | reflexivity].
      * destruct (String.eqb_spec k' k2); [reflexivity | exact IH].
  - apply dict_set_keys_present.
  - apply dict_set_fresh.
Qed.

Lemma dict_set_then_get_witness :
  dict_get (dict_set [("Model Search", true)] "Error Handling" false)
    "Model Search" false = true
  /\ keys (dict_set [("Model Search", true); ("Error Handling", true)]
             "Model Search" false)
     = ["Model Search"; "Error Handling"]
  /\ dict_set [("Model Search", true)] "Error Handling" false
     = [("Model Search", true); ("Error Handling", false)].
Proof.
  pose proof (dict_set_then_get [("Model Search", true)] "Error Handling"
                false false) as (_ & H2 & _ & H4).
  pose proof (dict_set_then_get
                [("Model Search", true); ("Error Handling", true)]
                "Model Search" false false) as (_ & _ & H3 & _).
  split; [|split].
  - apply (H2 "Model Search"). discriminate.
  - apply H3. simpl. tauto.
  - apply H4. simpl. intros [H|[]]. discriminate H.
Defined.

Lemma sum_values_count (d : dict) :
  sum_values d = Z.of_nat (List.length (filter snd d)).
Proof.
  induction d as [|[k v] d IH]; [reflexivity|].
  cbn [sum_values filter snd]. rewrite IH. destruct v; cbn [List.length]; lia.
Qed.

Lemma filter_partition_length {A} (f : A -> bool) (l : list A) :
  (List.length (filter f l)
   + List.length (filter (fun x => negb (f x)) l) = List.length l)%nat.
Proof.
  induction l as [|a l IH]; [reflexivity|].
  simpl. destruct (f a); simpl; lia.
Qed.

Lemma passed_tests_bounds (results : dict) :
  (0 <= passed_tests results <= total_tests results)%Z.
Proof.
  pose proof (filter_partition_length snd results) as Hp.
  unfold passed_tests, total_tests, len.
  rewrite sum_values_count. lia.
Qed.

(** The counts of the report: [passed] is the number of [True] outcomes,
    [failed] the number of [False] outcomes, and both lie between 0 and the
    total. *)
Theorem report_counts_partition (results : dict) :
  passed_tests results = Z.of_nat (List.length (filter snd results))
  /\ failed_tests results
     = Z.of_nat (List.length (filter (fun kv => negb (snd kv)) results))
  /\ (0 <= passed_tests results <= total_tests results)%Z
  /\ (0 <= failed_tests results <= total_tests results)%Z.
Proof.
  pose proof (filter_partition_length snd results) as Hp.
  unfold failed_tests, passed_tests, total_tests, len.
  rewrite sum_values_count. repeat split; lia.
Qed.

(** ** Further properties: the report *)

Lemma filter_indented_details (items : dict) :
  filter indented (map detail_line items) = map detail_line items.
Proof.
  induction items as [|[k v] items IH]; [reflexivity|].
  cbn [map]. unfold detail_line at 1. cbn [fst snd]. simpl filter.
  now rewrite IH.
Qed.

Lemma filter_indented_tips (results : dict) (test_name : string)
      (tips : list string) :
  In tips [basic_tips; inference_tips] ->
  filter indented (tips_for results test_name tips) = [].
Proof.
  unfold tips_for. intros [<-|[<-|[]]]; destruct (negb _); reflexivity.
Qed.

Lemma prompts_app (o1 o2 : list out) :
  prompts (o1 ++ o2) = prompts o1 ++ prompts o2.
Proof.
  induction o1 as [|[t|q] o1 IH]; simpl; [reflexivity | exact IH | now rewrite IH].
Qed.

Lemma prompts_map_print (ls : list string) : prompts (map Print ls) = [].
Proof. induction ls as [|l ls IH]; [reflexivity | exact IH]. Qed.

Lemma prompts_details (items : dict) : prompts (map detail_line items) = [].
Proof. induction items as [|[k v] items IH]; [reflexivity | exact IH]. Qed.

Lemma prompts_tips (results : dict) (test_name : string) (tips : list string) :
  prompts (tips_for results test_name tips) = [].
Proof.
  unfold tips_for. destruct (negb _); [apply prompts_map_print | reflexivity].
Qed.

Lemma filter_indented_verdict (passed total : Z) :
  filter indented
    [Print report_rule; Print (verdict passed total); Print tips_title] = [].
Proof.
  unfold verdict. destruct (_ =? _)%Z; [reflexivity|].
  destruct (Float.ltb _ _); reflexivity.
Qed.

(** The per-check listing is the only indented part of a report: one line
    per entry of the ResultSet, in its order, marked PASS or FAIL by the
    outcome; the report returns normally and reads no input. *)
Theorem report_lists_every_entry (results : dict) (ins : list event) :
  results <> [] ->
  filter indented (stdout_of (generate_test_report results ins))
  = map detail_line results
  /\ result_of (generate_test_report results ins) = Return tt
  /\ stdin_of (generate_test_report results ins) = ins
  /\ prompts (stdout_of (generate_test_report results ins)) = [].
Proof.
  intros Hne. rewrite (generate_test_report_run results ins Hne).
  unfold stdout_of, result_of, stdin_of. cbn [fst snd].
  split; [|split; [reflexivity|split; [reflexivity|]]].
  - unfold report_lines. rewrite !filter_app.
    rewrite filter_indented_details.
    rewrite !filter_indented_tips by (simpl; tauto).
    rewrite filter_indented_verdict.
    change (filter indented (report_counts results)) with (@nil out).
    change (filter indented [Print more_help]) with (@nil out).
    cbn [app].
    change (filter indented
              [Print (rate_text (passed_tests results) (total_tests results));
               Print ""; Print "Detailed Results:"]) with (@nil out).
    cbn [app]. now rewrite app_nil_r.
  - unfold report_lines.
    rewrite !prompts_app, prompts_details, !prompts_tips. reflexivity.
Qed.

Lemma report_lists_every_entry_witness :
  filter indented (stdout_of (generate_test_report full_session_results []))
  = map detail_line full_session_results
  /\ result_of (generate_test_report full_session_results []) = Return tt
  /\ stdin_of (generate_test_report full_session_results []) = []
  /\ prompts (stdout_of (generate_test_report full_session_results [])) = [].
Proof.
  apply (report_lists_every_entry full_session_results []). discriminate.
Defined.

(** Splits on every pair of counts a ResultSet of at most eight entries can
    give. *)
Ltac each_count p t :=
  let Ht := fresh "Ht" in
  let Hp := fresh "Hp" in
  assert (Ht : (t = 1 \/ t = 2 \/ t = 3 \/ t = 4 \/ t = 5 \/ t = 6 \/ t = 7
                \/ t = 8)%Z) by lia;
  assert (Hp : (p = 0 \/ p = 1 \/ p = 2 \/ p = 3 \/ p = 4 \/ p = 5 \/ p = 6
                \/ p = 7 \/ p = 8)%Z) by lia;
  repeat (destruct Ht as [Ht|Ht]); repeat (destruct Hp as [Hp|Hp]);
  subst p t; try lia.

Lemma verdict_small (p t : Z) :
  (1 <= t <= 8)%Z -> (0 <= p <= t)%Z ->
  verdict p t
  = if (p =? t)%Z then verdict_all
    else if (t <? 2 * p)%Z then verdict_mostly else verdict_needs_work.
Proof. intros Ht Hp. each_count p t; vm_compute; reflexivity. Qed.

Lemma rate_text_small (p t : Z) :
  (1 <= t <= 8)%Z -> (0 <= p <= t)%Z ->
  rate_text p t
  = ("Success Rate: " ++ Str.of_Z (nearest_tenth p t / 10) ++ "."
     ++ Str.of_Z (nearest_tenth p t mod 10) ++ "%")%string.
Proof. intros Ht Hp. each_count p t; vm_compute; reflexivity. Qed.

Lemma nearest_tenth_is_nearest (p t : Z) :
  (0 < t)%Z -> (0 <= p <= t)%Z ->
  (2 * Z.abs (nearest_tenth p t * t - 1000 * p) <= t)%Z
  /\ (0 <= nearest_tenth p t <= 1000)%Z.
Proof.
  intros Ht Hp. unfold nearest_tenth.
  pose proof (Z.div_mod (2000 * p + t) (2 * t) ltac:(lia)) as Hd.
  pose proof (Z.mod_pos_bound (2000 * p + t) (2 * t) ltac:(lia)) as Hm.
  set (q := ((2000 * p + t) / (2 * t))%Z) in *.
  set (r := ((2000 * p + t) mod (2 * t))%Z) in *.
  split; [lia|]. split; nia.
Qed.

Lemma in_report_lines_rate (results : dict) :
  In (Print (rate_text (passed_tests results) (total_tests results)))
     (report_lines results).
Proof. unfold report_lines. apply in_or_app. right. now left. Qed.

Lemma in_report_lines_verdict (results : dict) :
  In (Print (verdict (passed_tests results) (total_tests results)))
     (report_lines results).
Proof.
  unfold report_lines. apply in_or_app. right. apply in_or_app. right.
  apply in_or_app. right. apply in_or_app. left. right. now left.
Qed.

(** The verdict line for a ResultSet of one to eight entries: ALL TESTS
    PASSED exactly when every outcome is [True]; otherwise MOSTLY WORKING
    when strictly more than half passed, and NEEDS WORK when half or fewer
    did (exactly half is NEEDS WORK). *)
Theorem verdict_by_majority (results : dict) (ins : list event) :
  results <> [] ->
  (total_tests results <= 8)%Z ->
  In (Print (if (passed_tests results =? total_tests results)%Z
             then verdict_all
             else if (total_tests results <? 2 * passed_tests results)%Z
                  then verdict_mostly
                  else verdict_needs_work))
     (stdout_of (generate_test_report results ins)).
Proof.
  intros Hne H8.
  pose proof (total_tests_nonempty results Hne) as H0.
  pose proof (passed_tests_bounds results) as Hp.
  rewrite (generate_test_report_run results ins Hne).
  unfold stdout_of. cbn [fst].
  rewrite <- verdict_small by lia. apply in_report_lines_verdict.
Qed.

Lemma verdict_by_majority_witness :
  In (Print verdict_needs_work)
     (stdout_of (generate_test_report
        [("a", true); ("b", false); ("c", true); ("d", false)] [])).
Proof.
  apply (verdict_by_majority
           [("a", true); ("b", false); ("c", true); ("d", false)] []).
  - discriminate.
  - vm_compute. discriminate.
Defined.

(** The success rate of a ResultSet of one to eight entries: the binary64
    computation [(passed/total)*100] formatted with [.1f] prints the exact
    percentage rounded to the nearest tenth, between 0.0 and 100.0. *)
Theorem success_rate_is_nearest_tenth (results : dict) (ins : list event) :
  results <> [] ->
  (total_tests results <= 8)%Z ->
  let q := nearest_tenth (passed_tests results) (total_tests results) in
  In (Print ("Success Rate: " ++ Str.of_Z (q / 10) ++ "."
             ++ Str.of_Z (q mod 10) ++ "%"))
     (stdout_of (generate_test_report results ins))
  /\ (2 * Z.abs (q * total_tests results - 1000 * passed_tests results)
      <= total_tests results)%Z
  /\ (0 <= q <= 1000)%Z.
Proof.
  intros Hne H8 q.
  pose proof (total_tests_nonempty results Hne) as H0.
  pose proof (passed_tests_bounds results) as Hp.
  split.
  - rewrite (generate_test_report_run results ins Hne).
    unfold stdout_of. cbn [fst]. unfold q.
    rewrite <- rate_text_small by lia. apply in_report_lines_rate.
  - apply nearest_tenth_is_nearest; lia.
Qed.

Lemma success_rate_is_nearest_tenth_witness :
  In (Print "Success Rate: 66.7%")
     (stdout_of (generate_test_report
        [("a", true); ("b", false); ("c", true)] [])).
Proof.
  apply (success_rate_is_nearest_tenth
           [("a", true); ("b", false); ("c", true)] []).
  - discriminate.
  - vm_compute. discriminate.
Defined.

(** ** Further properties: the checks on every event *)

Ltac one_question_tac :=
  let ins := fresh "ins" in
  intros ins; destruct ins as [|[?| |] ?];
  unfold answer_of, is_y, success_printed, error_printed; run_check;
  try match goal with
      | |- context [String.eqb ?x "y"] => destruct (String.eqb x "y")
      end;
  repeat split.

Lemma test_basic_functionality_one :
  one_question test_basic_functionality basic_question.
Proof. one_question_tac. Qed.

Lemma test_model_search_one : one_question test_model_search search_question.
Proof. one_question_tac. Qed.

Lemma test_model_info_one : one_question test_model_info info_question.
Proof. one_question_tac. Qed.

Lemma test_dataset_search_one :
  one_question test_dataset_search dataset_question.
Proof. one_question_tac. Qed.

Lemma test_spaces_search_one : one_question test_spaces_search spaces_question.
Proof. one_question_tac. Qed.

Lemma test_error_handling_one :
  one_question test_error_handling errors_question.
Proof. one_question_tac. Qed.

Lemma run_comprehensive_test_one :
  one_question run_comprehensive_test comprehensive_question.
Proof. one_question_tac. Qed.

Lemma yes_no_checks_one (check : io bool) :
  In check yes_no_checks -> exists q, one_question check q.
Proof.
  unfold yes_no_checks. simpl.
  intros [<-|[<-|[<-|[<-|[<-|[<-|[<-|[]]]]]]]]; eexists.
  - apply test_basic_functionality_one.
  - apply test_model_search_one.
  - apply test_model_info_one.
  - apply test_dataset_search_one.
  - apply test_spaces_search_one.
  - apply test_error_handling_one.
  - apply run_comprehensive_test_one.
Qed.

(** Each of the seven one-question checks takes exactly one event of the
    terminal and asks exactly one question: a line gives its outcome, Ctrl-C
    raises [KeyboardInterrupt], the end of input raises [EOFError]. *)
Theorem one_question_check_takes_one_event (check : io bool)
    (ins : list event) :
  In check yes_no_checks ->
  result_of (check ins) = answer_of ins
  /\ stdin_of (check ins) = tl ins
  /\ List.length (prompts (stdout_of (check ins))) = 1%nat.
Proof.
  intros Hin. destruct (yes_no_checks_one check Hin) as [q Hq].
  destruct (Hq ins) as (Hr & Hi & Hp & _). rewrite Hp. now repeat split.
Qed.

Lemma one_question_check_takes_one_event_witness :
  result_of (test_model_search [Interrupt; Line "y"]) = Raise KeyboardInterrupt
  /\ stdin_of (test_model_search [Interrupt; Line "y"]) = [Line "y"]
  /\ List.length (prompts (stdout_of (test_model_search [Interrupt; Line "y"])))
     = 1%nat.
Proof.
  apply (one_question_check_takes_one_event test_model_search
           [Interrupt; Line "y"]).
  simpl. tauto.
Defined.

(** A one-question check prints a SUCCESS notice exactly when it returns
    [True] and an ERROR notice exactly when it returns [False]; when it
    raises it prints neither. *)
Theorem check_notice_matches_outcome (check : io bool) (ins : list event) :
  In check yes_no_checks ->
  (success_printed (stdout_of (check ins)) = true
   <-> result_of (check ins) = Return true)
  /\ (error_printed (stdout_of (check ins)) = true
      <-> result_of (check ins) = Return false).
Proof.
  intros Hin. destruct (yes_no_checks_one check Hin) as [q Hq].
  destruct (Hq ins) as (Hr & _ & _ & Hs & He). rewrite Hr, Hs, He.
  destruct (answer_of ins) as [[|]|e]; split; split;
    solve [reflexivity | discriminate].
Qed.

Lemma check_notice_matches_outcome_witness :
  (success_printed (stdout_of (test_spaces_search [Line "nope"])) = true
   <-> result_of (test_spaces_search [Line "nope"]) = Return true)
  /\ (error_printed (stdout_of (test_spaces_search [Line "nope"])) = true
      <-> result_of (test_spaces_search [Line "nope"]) = Return false).
Proof.
  apply (check_notice_matches_outcome test_spaces_search [Line "nope"]).
  simpl. tauto.
Defined.

Lemma test_inference_cases (ins : list event) :
  result_of (test_inference ins)
  = match ins with
    | Line gate :: rest => if is_n gate then Return true else answer_of rest
    | _ => answer_of ins
    end
  /\ stdin_of (test_inference ins)
     = match ins with
       | Line gate :: rest => if is_n gate then rest else tl rest
       | _ => tl ins
       end
  /\ prompts (stdout_of (test_inference ins))
     = match ins with
       | Line gate :: _ => inference_questions gate
       | _ => [token_question]
       end
  /\ success_printed (stdout_of (test_inference ins))
     = match ins with
       | Line gate :: rest =>
           negb (is_n gate)
           && match answer_of rest with Return true => true | _ => false end
       | _ => false
       end.
Proof.
  destruct ins as [|[gate| |] rest];
    unfold inference_questions, answer_of, is_n, is_y, success_printed;
    run_check; try (repeat split; fail).
  destruct (String.eqb (Str.strip (Str.lower gate)) "n");
    [repeat split|].
  destruct rest as [|[s| |] rest]; try (repeat split; fail).
  destruct (String.eqb (Str.strip (Str.lower s)) "y"); repeat split.
Qed.

(** The inference check on every input: the gate is always asked; a gate
    that reads [n] returns [True] with the INFO notice only; any other line
    makes the second question take the next event as a one-question check
    does; Ctrl-C or the end of input at either question raises. *)
Theorem test_inference_by_events (ins : list event) :
  result_of (test_inference ins)
  = match ins with
    | Line gate :: rest => if is_n gate then Return true else answer_of rest
    | _ => answer_of ins
    end
  /\ stdin_of (test_inference ins)
     = match ins with
       | Line gate :: rest => if is_n gate then rest else tl rest
       | _ => tl ins
       end
  /\ prompts (stdout_of (test_inference ins))
     = match ins with
       | Line gate :: _ => inference_questions gate
       | _ => [token_question]
       end
  /\ success_printed (stdout_of (test_inference ins))
     = match ins with
       | Line gate :: rest =>
           negb (is_n gate)
           && match answer_of rest with Return true => true | _ => false end
       | _ => false
       end.
Proof. exact (test_inference_cases ins). Qed.

(** ** Further properties: the loop and the process *)

(** Induction over the runs of the loop that return. *)
Lemma for_tests_return_ind (last : string)
      (P : list test -> dict -> loop_exit -> Prop) :
  (forall results, P [] results (Exhausted results)) ->
  (forall test_name test_func rest results,
      P ((test_name, test_func) :: rest) results (Broke results)) ->
  (forall test_name test_func rest results b x,
      P rest (dict_set results test_name b) x ->
      P ((test_name, test_func) :: rest) results x) ->
  forall ts results ins o x ins',
    for_tests last ts results ins = (o, Return x, ins') -> P ts results x.
Proof.
  intros Hnil Hbroke Hstep.
  induction ts as [|[test_name test_func] rest IH];
    intros results ins o x ins' H.
  - injection H as <- <- <-. apply Hnil.
  - rewrite for_tests_cons in H.
    assert (Hafter : forall b i1 o2,
               after_check last rest test_name results b i1
               = (o2, Return x, ins') ->
               P ((test_name, test_func) :: rest) results x).
    { intros b i1 o2 Ha. apply after_check_inv in Ha.
      destruct Ha as [(op & i2 & o3 & _ & Hf & _) | (e' & _ & [=])].
      apply (Hstep _ _ _ _ b). now apply IH in Hf. }
    destruct (test_func ins) as [[o1 [b|ex]] i1].
    + apply prepend_inv in H. destruct H as (o2 & Ha & _).
      exact (Hafter b i1 o2 Ha).
    + destruct ex;
        try (apply prepend_inv in H; destruct H as (o2 & Ha & _);
             exact (Hafter false i1 o2 Ha)).
      injection H as <- <- <-. apply Hbroke.
Qed.

Lemma dict_set_length (d : dict) (k : string) (v : bool) :
  (List.length d <= List.length (dict_set d k v))%nat.
Proof.
  induction d as [|[k' v'] d IH]; simpl; [lia|].
  destruct (String.eqb k' k); simpl; lia.
Qed.

(** The loop never drops an entry. *)
Lemma for_tests_grows (last : string) ts results ins o x ins' :
  for_tests last ts results ins = (o, Return x, ins') ->
  (List.length results <= List.length (results_of x))%nat.
Proof.
  revert ts results ins o x ins'.
  apply (for_tests_return_ind last
           (fun _ results x =>
              (List.length results <= List.length (results_of x))%nat)).
  - intros results. simpl. lia.
  - intros _ _ _ results. simpl. lia.
  - intros test_name _ _ results b x IH.
    pose proof (dict_set_length results test_name b). lia.
Qed.

Lemma keys_app (d1 d2 : dict) : keys (d1 ++ d2) = keys d1 ++ keys d2.
Proof. apply map_app. Qed.

(** With distinct names the loop only appends: the entries it was given are
    kept as they are, in place, and the new entries are one per check run,
    in the order of the checks; when the sequence runs out there is one for
    every check, after a [break] there are fewer. *)
Theorem loop_only_appends (last : string) (ts : list test) (results : dict)
    (ins : list event) (o : list out) (x : loop_exit) (ins' : list event) :
  NoDup (keys results ++ map fst ts) ->
  for_tests last ts results ins = (o, Return x, ins') ->
  exists added,
    results_of x = results ++ added
    /\ keys added = firstn (List.length added) (map fst ts)
    /\ match x with
       | Exhausted _ => List.length added = List.length ts
       | Broke _ => (List.length added < List.length ts)%nat
       end.
Proof.
  intros Hnd H. revert Hnd. revert ts results ins o x ins' H.
  apply (for_tests_return_ind last
           (fun ts results x =>
              NoDup (keys results ++ map fst ts) ->
              exists added,
                results_of x = results ++ added
                /\ keys added = firstn (List.length added) (map fst ts)
                /\ match x with
                   | Exhausted _ => List.length added = List.length ts
                   | Broke _ => (List.length added < List.length ts)%nat
                   end)).
  - intros results _. exists []. simpl. now rewrite app_nil_r.
  - intros test_name test_func rest results _. exists []. simpl.
    rewrite app_nil_r. repeat split. apply Nat.lt_0_succ.
  - intros test_name test_func rest results b x IH Hnd.
    assert (Hfresh : ~ In test_name (keys results)).
    { intros Hin. apply NoDup_remove_2 in Hnd. apply Hnd.
      apply in_or_app. now left. }
    rewrite (dict_set_fresh _ _ b Hfresh) in IH.
    destruct IH as (added & Hr & Hk & Hx).
    { rewrite keys_app. simpl. now rewrite <- app_assoc. }
    exists ((test_name, b) :: added). split; [|split].
    + rewrite Hr, <- app_assoc. reflexivity.
    + simpl. now rewrite Hk at 1.
    + destruct x; simpl.
      * now rewrite Hx.
      * now apply (proj1 (Nat.succ_lt_mono _ _)).
Qed.

Lemma loop_only_appends_witness :
  exists added,
    results_of (Broke [("Basic MCP Integration", true); ("Model Search", false);
                       ("Model Information", true)])
    = [("Basic MCP Integration", true)] ++ added
    /\ keys added
       = firstn (List.length added)
           (map fst (firstn 3 (skipn 1 tests)))
    /\ (List.length added < List.length (firstn 3 (skipn 1 tests)))%nat.
Proof.
  apply (loop_only_appends "Comprehensive Test" (firstn 3 (skipn 1 tests))
           [("Basic MCP Integration", true)]
           [Line "n"; Line ""; Line "y"; Line ""; Interrupt]
           (stdout_of (for_tests "Comprehensive Test" (firstn 3 (skipn 1 tests))
                         [("Basic MCP Integration", true)]
                         [Line "n"; Line ""; Line "y"; Line ""; Interrupt]))
           (Broke [("Basic MCP Integration", true); ("Model Search", false);
                   ("Model Information", true)])
           []).
  - simpl. repeat constructor; simpl; intuition discriminate.
  - reflexivity.
Defined.

Lemma script_end_cases (now : string) (ins : list event) :
  match result_of (run_tests tests ins) with
  | Return x =>
      match results_of x with
      | [] => snd (script now ins) = Traceback ZeroDivisionError
      | _ :: _ => snd (script now ins) = Finished
      end
  | Raise KeyboardInterrupt => snd (script now ins) = SysExit 0
  | Raise e => e = EOFError /\ snd (script now ins) = Traceback EOFError
  end
  /\ (exit_status (snd (script now ins)) = 0%Z
      \/ exit_status (snd (script now ins)) = 1%Z).
Proof.
  destruct (run_tests tests ins) as [[o r] i] eqn:H.
  unfold result_of. cbn [fst snd].
  destruct r as [x|e].
  - destruct (results_of x) as [|kv d] eqn:Hx.
    + unfold script. rewrite (main_empty now ins o x i H Hx). simpl. tauto.
    + unfold script. rewrite (main_reports now ins o x i H) by congruence.
      simpl. tauto.
  - unfold script. rewrite (main_raises now ins o e i H).
    pose proof H as H'. unfold run_tests in H'. apply for_tests_raise in H'.
    destruct H' as [[->| ->] _]; simpl; tauto.
Qed.

(** How the process ends, by how the loop ends: a report and a normal end
    when the loop returns a ResultSet that is not empty; a traceback of
    [ZeroDivisionError] when it returns the empty one; the goodbye path when
    Ctrl-C leaves the loop; a traceback of [EOFError] when the end of input
    leaves it.  There is no other end, and the exit status is 0 or 1. *)
Theorem script_ends (now : string) (ins : list event) :
  match result_of (run_tests tests ins) with
  | Return x =>
      match results_of x with
      | [] => snd (script now ins) = Traceback ZeroDivisionError
      | _ :: _ => snd (script now ins) = Finished
      end
  | Raise KeyboardInterrupt => snd (script now ins) = SysExit 0
  | Raise e => e = EOFError /\ snd (script now ins) = Traceback EOFError
  end
  /\ (exit_status (snd (script now ins)) = 0%Z
      \/ exit_status (snd (script now ins)) = 1%Z).
Proof. exact (script_end_cases now ins). Qed.

Lemma check_run_eta (check : io bool) (q : string) ins :
  one_question check q ->
  check ins = (stdout_of (check ins), answer_of ins, tl ins)
  /\ prompts (stdout_of (check ins)) = [q].
Proof.
  intros Hq. destruct (Hq ins) as (Hr & Hi & Hp & _).
  split; [|exact Hp].
  destruct (check ins) as [[o r] i]. unfold result_of, stdin_of in *.
  cbn [fst snd] in *. now subst.
Qed.

(** Unless the first event is Ctrl-C, the first check is recorded. *)
Lemma first_check_recorded ins o x i :
  answer_of ins <> Raise KeyboardInterrupt ->
  run_tests tests ins = (o, Return x, i) ->
  results_of x <> [].
Proof.
  intros Hc H. unfold run_tests, tests in H. rewrite for_tests_cons in H.
  destruct (check_run_eta test_basic_functionality basic_question ins
              test_basic_functionality_one) as [He _].
  rewrite He in H. clear He.
  assert (Hafter : forall b o1 o2,
             prepend o1
               (after_check (last_name tests) (tl tests)
                  "Basic MCP Integration" [] b (tl ins))
             = (o2, Return x, i) ->
             results_of x <> []).
  { intros b o1 o2 Hp. apply prepend_inv in Hp. destruct Hp as (o3 & Ha & _).
    apply after_check_inv in Ha.
    destruct Ha as [(op & i2 & o4 & _ & Hf & _) | (e' & _ & [=])].
    apply for_tests_grows in Hf. simpl in Hf.
    intros Hx. rewrite Hx in Hf. simpl in Hf. lia. }
  destruct (answer_of ins) as [b|e].
  - exact (Hafter b _ _ H).
  - destruct e; try congruence; exact (Hafter false _ _ H).
Qed.

(** The report is reached with the empty ResultSet, and the process ends
    with the [ZeroDivisionError] traceback, exactly when the first event of
    the terminal is Ctrl-C. *)
Theorem crash_iff_cancelled_at_first_question (now : string)
    (ins : list event) :
  snd (script now ins) = Traceback ZeroDivisionError
  <-> exists rest, ins = Interrupt :: rest.
Proof.
  split.
  - intros Hs. destruct (script_end_cases now ins) as [Hend _].
    destruct (run_tests tests ins) as [[o r] i] eqn:H.
    unfold result_of in Hend. cbn [fst snd] in Hend.
    destruct r as [x|e].
    + destruct (results_of x) as [|kv d] eqn:Hx; [|congruence].
      destruct ins as [|[s| |] rest]; [exfalso| exfalso | now exists rest | exfalso];
        refine (first_check_recorded _ _ _ _ _ H Hx); discriminate.
    + destruct e; try congruence; destruct Hend as [He Hend]; congruence.
  - intros [rest ->]. reflexivity.
Qed.

Lemma pause_line (last test_name w : string) ins :
  String.eqb test_name last = false ->
  pause last test_name (Line w :: ins)
  = ([Prompt wait_prompt; Print ""], Return tt, ins).
Proof. intros H. unfold pause. rewrite H. reflexivity. Qed.

Lemma pause_last (last : string) ins :
  pause last last ins = ([], Return tt, ins).
Proof. unfold pause. now rewrite String.eqb_refl. Qed.

Lemma observe_prepend {A} (o : list out)
      (x : list out * result A * list event) :
  observe (prepend o x) = after_questions (prompts o) (observe x).
Proof.
  destruct x as [[o2 r] i].
  unfold observe, prepend, after_questions, stdout_of, result_of, stdin_of.
  cbn [fst snd]. now rewrite prompts_app.
Qed.

(** An iteration whose check returns [b] and whose pause is acknowledged. *)
Lemma for_tests_answered (last test_name : string) (test_func : io bool)
      (rest : list test) (results : dict) ins o b w ins1 :
  test_func ins = (o, Return b, Line w :: ins1) ->
  String.eqb test_name last = false ->
  observe (for_tests last ((test_name, test_func) :: rest) results ins)
  = after_questions (prompts o ++ [wait_prompt])
      (observe (for_tests last rest (dict_set results test_name b) ins1)).
Proof.
  intros Hf Hl. rewrite for_tests_cons, Hf.
  rewrite (after_check_run _ _ _ _ _ _ _ _ _ (pause_line _ _ w ins1 Hl) eq_refl).
  rewrite !observe_prepend.
  destruct (observe _) as [[qs r] i]. unfold after_questions. cbn [fst snd].
  now rewrite <- app_assoc.
Qed.

(** The last iteration, whose check returns [b]: no pause. *)
Lemma for_tests_answered_last (last : string) (test_func : io bool)
      (results : dict) ins o b ins1 :
  test_func ins = (o, Return b, ins1) ->
  observe (for_tests last [(last, test_func)] results ins)
  = (prompts o, Return (Exhausted (dict_set results last b)), ins1).
Proof.
  intros Hf. rewrite for_tests_cons, Hf.
  rewrite (after_check_run _ _ _ _ _ _ _ _ _ (pause_last _ ins1) eq_refl).
  rewrite !observe_prepend. unfold observe, after_questions. simpl.
  now rewrite app_nil_r.
Qed.

Lemma check_answered (check : io bool) (q a : string) ins :
  one_question check q ->
  check (Line a :: ins)
  = (stdout_of (check (Line a :: ins)), Return (is_y a), ins)
  /\ prompts (stdout_of (check (Line a :: ins))) = [q].
Proof. intros Hq. apply (check_run_eta check q (Line a :: ins) Hq). Qed.

Lemma test_inference_answered (gate answer : string) ins :
  test_inference (inference_lines gate answer ++ ins)
  = (stdout_of (test_inference (inference_lines gate answer ++ ins)),
     Return (is_n gate || is_y answer), ins)
  /\ prompts (stdout_of (test_inference (inference_lines gate answer ++ ins)))
     = inference_questions gate.
Proof.
  destruct (test_inference_cases (inference_lines gate answer ++ ins))
    as (Hr & Hi & Hp & _).
  unfold inference_lines in *.
  destruct (is_n gate) eqn:Hg; cbn [app] in *; rewrite Hg in *;
    (split; [|exact Hp]);
    destruct (test_inference _) as [[o r] i];
    unfold result_of, stdin_of in *; cbn [fst snd answer_of tl orb] in *;
    now subst.
Qed.

(** A whole session in which every question gets a line: the questions are
    asked in the order of the checks with an acknowledgment between two
    checks and none after the last, the text typed at an acknowledgment
    does not matter, each check is recorded with the reading of its own
    answer (the inference check as passed when its gate reads [n]), and the
    input after the last answer is left unread. *)
Theorem session_outcomes
    (a1 w1 a2 w2 a3 w3 a4 w4 gate a5 w5 a6 w6 a7 w7 a8 : string)
    (rest : list event) :
  observe
    (run_tests tests
       ([Line a1; Line w1; Line a2; Line w2; Line a3; Line w3; Line a4; Line w4]
        ++ inference_lines gate a5
        ++ [Line w5; Line a6; Line w6; Line a7; Line w7; Line a8] ++ rest))
  = ([basic_question; wait_prompt; search_question; wait_prompt;
      info_question; wait_prompt; dataset_question; wait_prompt]
     ++ inference_questions gate
     ++ [wait_prompt; spaces_question; wait_prompt; errors_question;
         wait_prompt; comprehensive_question],
     Return (Exhausted
       [ ("Basic MCP Integration", is_y a1);
         ("Model Search", is_y a2);
         ("Model Information", is_y a3);
         ("Dataset Search", is_y a4);
         ("Text Generation Inference", is_n gate || is_y a5);
         ("Spaces Search", is_y a6);
         ("Error Handling", is_y a7);
         ("Comprehensive Test", is_y a8) ]),
     rest).
Proof.
  unfold run_tests, tests.
  change (last_name _) with "Comprehensive Test".
  cbn [app].
  destruct (check_answered _ _ a1 (Line w1 :: Line a2 :: Line w2 :: Line a3
              :: Line w3 :: Line a4 :: Line w4 :: inference_lines gate a5
              ++ Line w5 :: Line a6 :: Line w6 :: Line a7 :: Line w7
              :: Line a8 :: rest) test_basic_functionality_one) as [E1 P1].
  rewrite (for_tests_answered _ _ _ _ _ _ _ _ _ _ E1) by reflexivity. rewrite P1.
  destruct (check_answered _ _ a2 (Line w2 :: Line a3
              :: Line w3 :: Line a4 :: Line w4 :: inference_lines gate a5
              ++ Line w5 :: Line a6 :: Line w6 :: Line a7 :: Line w7
              :: Line a8 :: rest) test_model_search_one) as [E2 P2].
  rewrite (for_tests_answered _ _ _ _ _ _ _ _ _ _ E2) by reflexivity. rewrite P2.
  destruct (check_answered _ _ a3 (Line w3 :: Line a4 :: Line w4
              :: inference_lines gate a5
              ++ Line w5 :: Line a6 :: Line w6 :: Line a7 :: Line w7
              :: Line a8 :: rest) test_model_info_one) as [E3 P3].
  rewrite (for_tests_answered _ _ _ _ _ _ _ _ _ _ E3) by reflexivity. rewrite P3.
  destruct (check_answered _ _ a4 (Line w4 :: inference_lines gate a5
              ++ Line w5 :: Line a6 :: Line w6 :: Line a7 :: Line w7
              :: Line a8 :: rest) test_dataset_search_one) as [E4 P4].
  rewrite (for_tests_answered _ _ _ _ _ _ _ _ _ _ E4) by reflexivity. rewrite P4.
  destruct (test_inference_answered gate a5
              (Line w5 :: Line a6 :: Line w6 :: Line a7 :: Line w7
               :: Line a8 :: rest)) as [E5 P5].
  rewrite (for_tests_answered _ _ _ _ _ _ _ _ _ _ E5) by reflexivity. rewrite P5.
  destruct (check_answered _ _ a6 (Line w6 :: Line a7 :: Line w7
              :: Line a8 :: rest) test_spaces_search_one) as [E6 P6].
  rewrite (for_tests_answered _ _ _ _ _ _ _ _ _ _ E6) by reflexivity. rewrite P6.
  destruct (check_answered _ _ a7 (Line w7 :: Line a8 :: rest)
              test_error_handling_one) as [E7 P7].
  rewrite (for_tests_answered _ _ _ _ _ _ _ _ _ _ E7) by reflexivity. rewrite P7.
  destruct (check_answered _ _ a8 rest run_comprehensive_test_one) as [E8 P8].
  rewrite (for_tests_answered_last _ _ _ _ _ _ _ E8), P8.
  unfold after_questions. cbn [fst snd app dict_set].
  rewrite <- !app_assoc. reflexivity.
Qed.

(** ** Further properties: runs without Ctrl-C *)










(** ** Further properties: which answers read [y] or [n] *)

Lemma lower_char_y (c : ascii) :
  Str.lower_char c = "y"%char <-> c = "y"%char \/ c = "Y"%char.
Proof.
  destruct c as [[] [] [] [] [] [] [] []]; cbv;
    (split;
     [ intros H; first [discriminate H | now left | now right]
     | intros [H|H]; first [discriminate H | reflexivity] ]).
Qed.

Lemma lower_char_n (c : ascii) :
  Str.lower_char c = "n"%char <-> c = "n"%char \/ c = "N"%char.
Proof.
  destruct c as [[] [] [] [] [] [] [] []]; cbv;
    (split;
     [ intros H; first [discriminate H | now left | now right]
     | intros [H|H]; first [discriminate H | reflexivity] ]).
Qed.

Lemma isspace_lower_char (c : ascii) :
  Str.isspace (Str.lower_char c) = Str.isspace c.
Proof. destruct c as [[] [] [] [] [] [] [] []]; reflexivity. Qed.

Lemma allspace_lower (s : string) : allspace (Str.lower s) = allspace s.
Proof.
  induction s as [|c s IH]; [reflexivity|].
  simpl. now rewrite isspace_lower_char, IH.
Qed.

Lemma lower_append (s1 s2 : string) :
  Str.lower (s1 ++ s2) = (Str.lower s1 ++ Str.lower s2)%string.
Proof. induction s1 as [|c s1 IH]; [reflexivity | simpl; now rewrite IH]. Qed.

Lemma lower_append_inv (s a b : string) :
  Str.lower s = (a ++ b)%string ->
  exists s1 s2, s = (s1 ++ s2)%string /\ Str.lower s1 = a /\ Str.lower s2 = b.
Proof.
  revert s. induction a as [|c a IH]; intros s H.
  - exists EmptyString, s. now repeat split.
  - destruct s as [|c' s]; [discriminate H|].
    simpl in H. injection H as Hc H.
    destruct (IH s H) as (s1 & s2 & -> & H1 & H2).
    exists (String c' s1), s2. simpl. now rewrite Hc, H1.
Qed.

Lemma lstrip_split (s : string) :
  exists l, s = (l ++ Str.lstrip s)%string /\ allspace l = true.
Proof.
  induction s as [|c s IH].
  - now exists EmptyString.
  - simpl. destruct (Str.isspace c) eqn:Hc.
    + destruct IH as (l & Hl & Ha). exists (String c l). simpl.
      rewrite Hc, Ha. split; [now rewrite <- Hl | reflexivity].
    + now exists EmptyString.
Qed.

Lemma lstrip_spaces (l s : string) (c : ascii) :
  allspace l = true -> Str.isspace c = false ->
  Str.lstrip (l ++ String c s) = String c s.
Proof.
  intros Hl Hc. induction l as [|c' l IH]; simpl.
  - now rewrite Hc.
  - simpl in Hl. apply andb_true_iff in Hl. destruct Hl as [H1 H2].
    rewrite H1. now apply IH.
Qed.

Lemma rstrip_empty (s : string) :
  Str.rstrip s = EmptyString <-> allspace s = true.
Proof.
  induction s as [|c s IH]; simpl; [tauto|].
  destruct (Str.rstrip s) as [|x r].
  - destruct (Str.isspace c); simpl.
    + split; [intros _; now apply IH | reflexivity].
    + split; discriminate.
  - split; [discriminate|].
    intros H. apply andb_true_iff in H. destruct H as [_ H].
    apply IH in H. discriminate H.
Qed.

(** [s.strip()] is the one character [x] exactly when [s] is [x] between
    two runs of white space. *)
Lemma strip_single (t : string) (x : ascii) :
  Str.isspace x = false ->
  Str.strip t = String x EmptyString
  <-> exists l r, t = (l ++ String x r)%string
                  /\ allspace l = true /\ allspace r = true.
Proof.
  intros Hx. unfold Str.strip. split.
  - intros H. destruct (lstrip_split t) as (l & Ht & Hl).
    destruct (Str.lstrip t) as [|c u]; [discriminate H|].
    simpl in H. destruct (Str.rstrip u) as [|y r'] eqn:Hu.
    + destruct (Str.isspace c); [discriminate H|].
      injection H as ->. exists l, u. repeat split; try assumption.
      now apply rstrip_empty.
    + discriminate H.
  - intros (l & r & -> & Hl & Hr).
    rewrite (lstrip_spaces l r x Hl Hx). simpl.
    apply rstrip_empty in Hr. now rewrite Hr, Hx.
Qed.

Lemma reads_letter (s : string) (x : ascii) :
  Str.isspace x = false ->
  Str.strip (Str.lower s) = String x EmptyString
  <-> exists l c r, s = (l ++ String c r)%string
                    /\ allspace l = true /\ allspace r = true
                    /\ Str.lower_char c = x.
Proof.
  intros Hx. rewrite (strip_single _ x Hx). split.
  - intros (l & r & H & Hl & Hr).
    apply lower_append_inv in H. destruct H as (s1 & s2 & -> & H1 & H2).
    destruct s2 as [|c s2]; [discriminate H2|].
    simpl in H2. injection H2 as Hc H2.
    exists s1, c, s2. subst l r. rewrite allspace_lower in Hl, Hr.
    now repeat split.
  - intros (l & c & r & -> & Hl & Hr & Hc).
    exists (Str.lower l), (Str.lower r).
    rewrite lower_append. simpl. rewrite Hc, !allspace_lower.
    now repeat split.
Qed.

(** The answers that read [y] are exactly the lines made of one letter [y]
    or [Y] with any white space before and after it; likewise [n] or [N]
    for the answers that read [n].  Nothing longer ([yes], [no], [y.])
    reads as either. *)
Theorem answers_that_read_y_or_n (s : string) :
  (is_y s = true
   <-> exists l c r, s = (l ++ String c r)%string
                     /\ allspace l = true /\ allspace r = true
                     /\ (c = "y"%char \/ c = "Y"%char))
  /\ (is_n s = true
      <-> exists l c r, s = (l ++ String c r)%string
                        /\ allspace l = true /\ allspace r = true
                        /\ (c = "n"%char \/ c = "N"%char)).
Proof.
  unfold is_y, is_n. split.
  - rewrite String.eqb_eq, (reads_letter s "y"%char eq_refl).
    split; intros (l & c & r & H); exists l, c, r;
      now rewrite lower_char_y in *.
  - rewrite String.eqb_eq, (reads_letter s "n"%char eq_refl).
    split; intros (l & c & r & H); exists l, c, r;
      now rewrite lower_char_n in *.
Qed.

(** ** Further properties: the last thing printed *)

Lemma last_app {A} (l1 l2 : list A) (d : A) :
  l2 <> [] -> last (l1 ++ l2) d = last l2 d.
Proof.
  intros H. induction l1 as [|a l1 IH]; [reflexivity|].
  simpl. rewrite IH. destruct (l1 ++ l2) eqn:E; [|reflexivity].
  apply app_eq_nil in E. destruct E as [_ E]. contradiction.
Qed.

Lemma report_lines_last (results : dict) (d : out) :
  last (report_lines results) d = Print more_help.
Proof.
  unfold report_lines. rewrite !app_assoc. apply last_last.
Qed.

Lemma report_lines_not_nil (results : dict) : report_lines results <> [].
Proof. unfold report_lines, report_counts. discriminate. Qed.

(** The four ends of the process, each with the last item it writes. *)
Lemma script_end_and_last (now : string) (ins : list event) :
  let t := snd (script now ins) in
  let z := last (fst (script now ins)) (Print "") in
  (t = Finished /\ z = Print more_help)
  \/ (t = SysExit 0 /\ z = Print goodbye)
  \/ (t = Traceback EOFError /\ z = Prompt wait_prompt)
  \/ (t = Traceback ZeroDivisionError /\ z = Print "Failed: 0").
Proof.
  cbv zeta. destruct (run_tests tests ins) as [[o r] i] eqn:H.
  destruct r as [x|e].
  - destruct (results_of x) as [|kv d] eqn:Hx.
    + right. right. right. unfold script.
      rewrite (main_empty now ins o x i H Hx). cbn [fst snd].
      split; [reflexivity|].
      rewrite app_assoc, last_app by discriminate. reflexivity.
    + left. unfold script.
      rewrite (main_reports now ins o x i H) by congruence. cbn [fst snd].
      split; [reflexivity|].
      rewrite app_assoc, last_app by apply report_lines_not_nil.
      apply report_lines_last.
  - unfold script. rewrite (main_raises now ins o e i H).
    pose proof H as H'. unfold run_tests in H'. apply for_tests_raise in H'.
    destruct H' as [[->| ->] [o' ->]]; cbn [fst snd].
    + right. left. split; [reflexivity|]. apply last_last.
    + right. right. left. split; [reflexivity|].
      rewrite app_assoc. apply last_last.
Qed.

(** The last item written tells how the process ended: the help line closes
    a completed report, the goodbye notice closes the exit through
    [sys.exit(0)], an unanswered acknowledgment prompt precedes the
    [EOFError] traceback, and the [Failed: 0] line precedes the
    [ZeroDivisionError] traceback. *)
Theorem last_output_tells_the_end (now : string) (ins : list event) :
  let t := snd (script now ins) in
  let z := last (fst (script now ins)) (Print "") in
  (t = Finished <-> z = Print more_help)
  /\ (t = SysExit 0 <-> z = Print goodbye)
  /\ (t = Traceback EOFError <-> z = Prompt wait_prompt)
  /\ (t = Traceback ZeroDivisionError <-> z = Print "Failed: 0").
Proof.
  cbv zeta.
  destruct (script_end_and_last now ins)
    as [[-> ->] | [[-> ->] | [[-> ->] | [-> ->]]]];
    repeat split; intros H; solve [reflexivity | discriminate H].
Qed.
